(** * glraster: the main program and its frame loop

    A shallow embedding of [src/main.c] (option scan, platform start-up,
    frame loop, shutdown) together with the file reader and the raster
    display it drives.  The file reader and the display live in
    [file_reader.c] and [display.c]; those two are modelled from the
    specification, [main] is translated from the C text.

    Every run of [main] is described by the list of calls it makes to the
    outside world (the trace) and by the way it ends. *)

From Stdlib Require Import ZArith List String Ascii Bool Lia.
From Stdlib Require Import Init.Byte.
Import ListNotations.

Local Open Scope string_scope.
Local Open Scope list_scope.
Local Open Scope Z_scope.

(** ** Constants of [main.c] *)

Definition EXIT_SUCCESS : Z := 0.
Definition EXIT_FAILURE : Z := 1.

Definition DEFAULT_WINDOW_PREFIX : string := "glraster".
Definition DEFAULT_WINDOW_W : Z := 1024.
Definition DEFAULT_WINDOW_H : Z := 768.
Definition DEFAULT_BUFFER_SIZE : Z := 512.
Definition MAX_TITLE_LEN : nat := 128.
Definition MAX_VERTEX_BUFFER : Z := 128 * 1024.
Definition MAX_ELEMENT_BUFFER : Z := 128 * 1024.

(** ** The file reader ([file_reader.h], [file_reader.c]) *)

Module FileReader.

(** Modelled from the spec: the I/O failures of its error taxonomy. *)
Inductive io_error : Type :=
| NotFound
| Unreadable
| ReadFailed.

(** Modelled from the spec: what the file system holds under a path, a
    file that is not there, one that cannot be opened or sized, or the
    bytes of a readable file. *)
Inductive fs_entry : Type :=
| Missing
| NoAccess
| Regular (contents : list byte).

(** Modelled from the spec: [struct file_reader] of [file_reader.h] is
    not part of the sources.  [main.c] reads the fields [file_size],
    [buffer_size] and [buffer]; [window_offset] and [valid_length] are
    those of the specification's data model, where [buffer_size] is
    called the buffer capacity.  The open handle is kept as the bytes of
    the file, which the specification fixes at open time. *)
Record file_reader : Type := mk_reader {
  path : string;
  handle : list byte;
  file_size : Z;
  buffer_size : Z;
  buffer : list byte;
  window_offset : Z;
  valid_length : Z
}.

Definition clamp (x lo hi : Z) : Z :=
  if x <? lo then lo else if hi <? x then hi else x.

(** Modelled from the spec: the target of a tick is
    [clamp (desired, 0, file_size - buffer_capacity)], and [0] when the
    file is shorter than the buffer. *)
Definition tick_target (r : file_reader) (desired_offset : Z) : Z :=
  if file_size r <? buffer_size r then 0
  else clamp desired_offset 0 (file_size r - buffer_size r).

(** Modelled from the spec: a positioned read of at most [n] bytes at
    offset [off]; it is short only at the end of the file. *)
Definition read_at (bytes : list byte) (off n : Z) : list byte :=
  firstn (Z.to_nat n) (skipn (Z.to_nat off) bytes).

(** Modelled from the spec: the refill half of a tick.  The cursor moves
    to [target], up to [buffer_size] bytes are read, the window offset
    becomes [target] and the valid length the number of bytes read. *)
Definition refill (r : file_reader) (target : Z) : file_reader :=
  let bytes := read_at (handle r) target (buffer_size r) in
  {| path := path r;
     handle := handle r;
     file_size := file_size r;
     buffer_size := buffer_size r;
     buffer := bytes;
     window_offset := target;
     valid_length := Z.of_nat (List.length bytes) |}.

(** Modelled from the spec: [file_reader_tick] of [file_reader.c], which
    is not part of the sources.  When the target is the current window
    offset nothing happens.  Otherwise the window is refilled; when the
    read fails ([read_ok = false]) the failure is reported and the reader
    is left as it was. *)
Definition file_reader_tick (r : file_reader) (desired_offset : Z)
    (read_ok : bool) : file_reader * option io_error :=
  let target := tick_target r desired_offset in
  if target =? window_offset r then (r, None)
  else if read_ok then (refill r target, None)
  else (r, Some ReadFailed).

(** Modelled from the spec: [file_reader_init] of [file_reader.c], which
    is not part of the sources.  It fails when the file cannot be opened
    or sized.  A zero or negative request stands for the default size;
    the capacity is the smaller of the request and the file size; the
    buffer is first filled as by a tick to offset [0]. *)
Definition file_reader_init (fs : string -> fs_entry) (file_path : string)
    (requested : Z) : io_error + file_reader :=
  match fs file_path with
  | Missing => inl NotFound
  | NoAccess => inl Unreadable
  | Regular contents =>
      let size := Z.of_nat (List.length contents) in
      let request :=
        if requested <=? 0 then DEFAULT_BUFFER_SIZE else requested in
      inr (refill {| path := file_path;
                     handle := contents;
                     file_size := size;
                     buffer_size := Z.min request size;
                     buffer := [];
                     window_offset := 0;
                     valid_length := 0 |} 0)
  end.

(** A history of ticks: requested offsets with the fate of their read. *)
Definition ticks (r : file_reader) (history : list (Z * bool)) : file_reader :=
  fold_left (fun acc e => fst (file_reader_tick acc (fst e) (snd e)))
            history r.

(** The state a reader keeps between operations. *)
Definition well_formed (r : file_reader) : Prop :=
  file_size r = Z.of_nat (List.length (handle r)) /\
  0 <= buffer_size r <= file_size r /\
  0 <= window_offset r <= file_size r - buffer_size r /\
  valid_length r = buffer_size r /\
  buffer r = read_at (handle r) (window_offset r) (buffer_size r).

End FileReader.

(** ** The raster display ([display.h], [display.c]) *)

Module Display.

(** Modelled from the spec: [struct raster_display] of [display.h] is
    not part of the sources.  [main.c] writes the fields [w] and [h] and
    reads [file_offset]; the last two fields keep the sizes handed over
    at initialisation. *)
Record raster_display : Type := mk_display {
  w : Z;
  h : Z;
  file_offset : Z;
  total_size : Z;
  window_size : Z
}.

(** Modelled from the spec: [raster_display_init] of [display.c], which
    is not part of the sources.  It fails when a viewport dimension is
    zero or negative. *)
Definition raster_display_init (width height fsize bsize : Z)
    : option raster_display :=
  if (width <=? 0) || (height <=? 0) then None
  else Some {| w := width; h := height; file_offset := 0;
               total_size := fsize; window_size := bsize |}.

(** [display->w = width; display->h = height;] *)
Definition set_viewport (d : raster_display) (width height : Z)
    : raster_display :=
  {| w := width; h := height; file_offset := file_offset d;
     total_size := total_size d; window_size := window_size d |}.

(** Modelled from the spec: the dialog of [raster_display_draw_dialog]
    leaves the offset the user asks for in [file_offset]. *)
Definition set_file_offset (d : raster_display) (off : Z) : raster_display :=
  {| w := w d; h := h d; file_offset := off;
     total_size := total_size d; window_size := window_size d |}.

End Display.

(** ** The C library pieces [main] relies on *)

Definition nl : string := String (ascii_of_nat 10) EmptyString.

Definition code (c : ascii) : Z := Z.of_nat (nat_of_ascii c).

(** [strlen] *)
Definition strlen (s : string) : Z := Z.of_nat (String.length s).

(** [strncpy (dst, src, n)] into an array of [n] characters: the
    characters the array holds from its start, which are the first [n]
    characters of [src]; the rest of the array is filled with zeros.  The
    array holds a terminated C string only when [src] has fewer than [n]
    characters.  When [src] has [n] characters or more, the array is left
    without terminator, and what [strlen], [snprintf] and
    [file_reader_init] then read from it is not fixed by the C text: the
    model goes on with the [n] characters, so what it says about a file
    name holds for names shorter than [n]. *)
Definition strncpy (src : string) (n : nat) : string := substring 0 n src.

(** [snprintf (dst, n, ...)]: the formatted text cut to [n - 1] characters. *)
Definition snprintf (n : nat) (text : string) : string :=
  substring 0 (n - 1) text.

Definition LONG_MAX : Z := 2 ^ 63 - 1.
Definition LONG_MIN : Z := - 2 ^ 63.

Definition isspace (c : ascii) : bool :=
  let n := code c in (n =? 32) || ((9 <=? n) && (n <=? 13)).

Definition digit_value (c : ascii) : option Z :=
  let n := code c in
  if (48 <=? n) && (n <=? 57) then Some (n - 48) else None.

Fixpoint skip_spaces (s : string) : string :=
  match s with
  | String c rest => if isspace c then skip_spaces rest else s
  | EmptyString => s
  end.

Fixpoint decimal (s : string) (acc : Z) : Z :=
  match s with
  | String c rest =>
      match digit_value c with
      | Some d => decimal rest (10 * acc + d)
      | None => acc
      end
  | EmptyString => acc
  end.

(** [strtol (s, NULL, 10)] for a 64-bit [long]: blanks, an optional sign,
    the longest run of digits, the result kept within the range of [long];
    [0] when there is no digit. *)
Definition strtol (s : string) : Z :=
  match skip_spaces s with
  | String "-"%char rest => Z.max LONG_MIN (- decimal rest 0)
  | String "+"%char rest => Z.min LONG_MAX (decimal rest 0)
  | rest => Z.min LONG_MAX (decimal rest 0)
  end.

(** ** Calls to the outside world *)

Inductive stream : Type := stdout | stderr.

Inductive printf_arg : Type :=
| ArgStr (s : string)
| ArgInt (n : Z).

Inductive window_hint : Type :=
| GLFW_CONTEXT_VERSION_MAJOR (v : Z)
| GLFW_CONTEXT_VERSION_MINOR (v : Z)
| GLFW_OPENGL_PROFILE_CORE.

Inductive event : Type :=
| EvSignal
| EvFprintf (out : stream) (format : string) (args : list printf_arg)
| EvAbort
| EvGlfwSetErrorCallback
| EvGlfwInit (ok : bool)
| EvGlfwWindowHint (hint : window_hint)
| EvGlfwCreateWindow (width height : Z) (title : string) (ok : bool)
| EvGlfwMakeContextCurrent
| EvGlfwGetWindowSize (width height : Z)
| EvGl3wInit (ok : bool)
| EvGlViewport (x y width height : Z)
| EvNkInit
| EvNkFontStashBegin
| EvNkFontStashEnd
| EvFileReaderInit (file_path : string) (requested : Z) (ok : bool)
| EvDisplayInit (width height fsize bsize : Z) (ok : bool)
| EvGlfwWindowShouldClose (close : bool)
| EvGlfwPollEvents
| EvNkNewFrame
| EvDisplayDrawDialog (d : Display.raster_display)
| EvFileReaderTick (offset : Z) (after : FileReader.file_reader)
    (failure : option FileReader.io_error)
| EvDisplayDraw (d : Display.raster_display) (bytes : list byte)
| EvDisplayRender (d : Display.raster_display)
| EvNkRender (max_vertex max_element : Z)
| EvGlfwSwapBuffers
| EvInterruptFlag (set : bool)
| EvDisplayFree
| EvNkShutdown
| EvGlfwTerminate
| EvFileReaderFree.

(** How a run ends: [return] from [main], [abort ()], or still inside the
    frame loop when the observation stops. *)
Inductive outcome : Type :=
| Exited (status : Z)
| Aborted
| Running.

(** ** Programs: a trace of calls, then a value or the end of the run *)

Inductive step (A : Type) : Type :=
| Continue (a : A)
| Halt (o : outcome).
Arguments Continue {A} a.
Arguments Halt {A} o.

Definition prog (A : Type) : Type := (list event * step A)%type.

Definition ret {A : Type} (a : A) : prog A := ([], Continue a).

Definition bind {A B : Type} (m : prog A) (k : A -> prog B) : prog B :=
  match m with
  | (t, Halt o) => (t, Halt o)
  | (t, Continue a) => let (t', s) := k a in (t ++ t', s)
  end.

Definition call (e : event) : prog unit := ([e], Continue tt).

Definition halt {A : Type} (o : outcome) : prog A := ([], Halt o).

Notation "x <- m ;; k" := (bind m (fun x => k))
  (at level 61, m at next level, right associativity).
Notation "m ;; k" := (bind m (fun _ => k))
  (at level 61, right associativity).

Definition fprintf (out : stream) (format : string) (args : list printf_arg)
    : prog unit :=
  call (EvFprintf out format args).

(** ** What the outside world answers *)

(** One return of [getopt_long]: the option character and [optarg].  The
    scan of the command line is [getopt_long]'s; the model starts from what
    it returns.  Two things [getopt_long] does besides returning are not
    calls of [main] and so not in the trace of [main]: on a ['?'] return it
    has written its own message on [stderr] ([opterr] is never cleared;
    see [getopt_long_complaints] below); and [option_list] in [main.c] has
    no all-zero last entry, so for a long option that matches no entry it
    reads past the table, and no list of returns describes that. *)
Record getopt_result : Type := mk_getopt {
  opt : Z;
  optarg : string
}.

(** Everything a run of [main] receives from outside: the successive
    returns of [getopt_long] (it returns [-1] once the list is used up),
    the answers of the platform at start-up, the file system, and for each
    frame [k] of the loop the close request, the offset the dialog leaves,
    the fate of a read, the window size, and the value of [interrupt_flag]
    when the loop tests it. *)
Record environment : Type := mk_env {
  getopt_results : list getopt_result;
  glfw_init_ok : bool;
  create_window_ok : bool;
  startup_window_size : Z * Z;
  gl3w_init_ok : bool;
  file_system : string -> FileReader.fs_entry;
  window_should_close : nat -> bool;
  dialog_offset : nat -> Z;
  read_ok : nat -> bool;
  frame_window_size : nat -> Z * Z;
  interrupt_flag : nat -> bool
}.

(** ** [main.c] *)

Definition help_text : string :=
  ("  glraster usage / options      " ++ nl ++
   "--------------------------------" ++ nl ++
   " -f  --file    :    Input file  " ++ nl ++
   " -s  --size    :    Buffer size " ++ nl ++
   " -h  --help    :    Print help  " ++ nl)%string.

Definition print_help : prog unit := fprintf stdout help_text [].

(** The locals [file_path] and [buffer_size] of [main]. *)
Record options : Type := mk_options {
  file_path : string;
  buffer_size : Z
}.

(** [char file_path[MAX_FILE_LEN] = "\0"; long int buffer_size =
    DEFAULT_BUFFER_SIZE;] *)
Definition initial_options : options :=
  {| file_path := ""; buffer_size := DEFAULT_BUFFER_SIZE |}.

(** The locals of [main] that live across the frame loop. *)
Record locals : Type := mk_locals {
  window_w : Z;
  window_h : Z;
  display : Display.raster_display;
  reader : FileReader.file_reader
}.

Section Main.

(** [MAX_FILE_LEN] comes from [file_reader.h]. *)
Variable MAX_FILE_LEN : nat.
Variable env : environment.

(** The [while (1)] loop around [getopt_long], run on the returns of
    [getopt_long]. *)
Fixpoint scan_options (results : list getopt_result) (o : options)
    : prog options :=
  match results with
  | [] => ret o
  | r :: rest =>
      if opt r =? -1 then ret o
      else if opt r =? code "f" then
        scan_options rest
          {| file_path := strncpy (optarg r) MAX_FILE_LEN;
             buffer_size := buffer_size o |}
      else if opt r =? code "s" then
        scan_options rest
          {| file_path := file_path o;
             buffer_size := strtol (optarg r) |}
      else if (opt r =? code "h") || (opt r =? code "?") then
        print_help ;; halt (Exited EXIT_SUCCESS)
      else
        call EvAbort ;; halt Aborted
  end.

Definition glfwInit : prog bool :=
  call (EvGlfwInit (glfw_init_ok env)) ;; ret (glfw_init_ok env).

Definition glfwCreateWindow (width height : Z) (title : string) : prog bool :=
  call (EvGlfwCreateWindow width height title (create_window_ok env)) ;;
  ret (create_window_ok env).

Definition glfwGetWindowSize (answer : Z * Z) : prog (Z * Z) :=
  call (EvGlfwGetWindowSize (fst answer) (snd answer)) ;; ret answer.

(** [gl3wInit] returns non-zero when it fails. *)
Definition gl3wInit : prog bool :=
  call (EvGl3wInit (gl3w_init_ok env)) ;; ret (negb (gl3w_init_ok env)).

Definition file_reader_init (p : string) (size : Z)
    : prog (option FileReader.file_reader) :=
  match FileReader.file_reader_init (file_system env) p size with
  | inl _ => call (EvFileReaderInit p size false) ;; ret None
  | inr r => call (EvFileReaderInit p size true) ;; ret (Some r)
  end.

Definition raster_display_init (width height fsize bsize : Z)
    : prog (option Display.raster_display) :=
  let d := Display.raster_display_init width height fsize bsize in
  call (EvDisplayInit width height fsize bsize
          (match d with Some _ => true | None => false end)) ;;
  ret d.

Definition glfwWindowShouldClose (k : nat) : prog bool :=
  call (EvGlfwWindowShouldClose (window_should_close env k)) ;;
  ret (window_should_close env k).

Definition raster_display_draw_dialog (k : nat) (d : Display.raster_display)
    : prog Display.raster_display :=
  let d' := Display.set_file_offset d (dialog_offset env k) in
  call (EvDisplayDrawDialog d') ;; ret d'.

(** The value [file_reader_tick] returns, if any, is dropped by [main]. *)
Definition file_reader_tick (k : nat) (r : FileReader.file_reader)
    (offset : Z) : prog FileReader.file_reader :=
  let res := FileReader.file_reader_tick r offset (read_ok env k) in
  call (EvFileReaderTick offset (fst res) (snd res)) ;; ret (fst res).

Definition read_interrupt_flag (k : nat) : prog bool :=
  call (EvInterruptFlag (interrupt_flag env k)) ;; ret (interrupt_flag env k).

(** The body of the frame loop up to [glfwSwapBuffers]. *)
Definition frame (k : nat) (st : locals) : prog locals :=
  call EvGlfwPollEvents ;;
  call EvNkNewFrame ;;
  d <- raster_display_draw_dialog k
         (Display.set_viewport (display st) (window_w st) (window_h st)) ;;
  r <- file_reader_tick k (reader st) (Display.file_offset d) ;;
  call (EvDisplayDraw d (FileReader.buffer r)) ;;
  size <- glfwGetWindowSize (frame_window_size env k) ;;
  call (EvDisplayRender d) ;;
  call (EvNkRender MAX_VERTEX_BUFFER MAX_ELEMENT_BUFFER) ;;
  call EvGlfwSwapBuffers ;;
  ret {| window_w := fst size; window_h := snd size;
         display := d; reader := r |}.

(** [while (!glfwWindowShouldClose (window)) { ... }], frame [k] first;
    [fuel] bounds the number of frames observed. *)
Fixpoint frame_loop (fuel : nat) (k : nat) (st : locals) : prog locals :=
  match fuel with
  | O => halt Running
  | S fuel' =>
      close <- glfwWindowShouldClose k ;;
      if close then ret st
      else
        st' <- frame k st ;;
        flag <- read_interrupt_flag k ;;
        if flag then
          fprintf stdout ("[INFO] - CTRL-C detected..." ++ nl) [] ;;
          ret st'
        else frame_loop fuel' (S k) st'
  end.

(** The body of [main].  Each [return] of the C text ends a branch here.
    The window hint under [#ifdef __APPLE__] is left out. *)
Definition main_body (fuel : nat) : prog Z :=
  call EvSignal ;;
  o <- scan_options (getopt_results env) initial_options ;;
  if strlen (file_path o) <=? 0 then
    fprintf stderr ("[FAIL] - No input file provided" ++ nl) [] ;;
    print_help ;;
    ret EXIT_FAILURE
  else
  call EvGlfwSetErrorCallback ;;
  up <- glfwInit ;;
  if negb up then
    fprintf stderr ("[FAIL] - GLFW failed to initialize" ++ nl) [] ;;
    ret EXIT_FAILURE
  else
  call (EvGlfwWindowHint (GLFW_CONTEXT_VERSION_MAJOR 3)) ;;
  call (EvGlfwWindowHint (GLFW_CONTEXT_VERSION_MINOR 3)) ;;
  call (EvGlfwWindowHint GLFW_OPENGL_PROFILE_CORE) ;;
  let window_title :=
    snprintf MAX_TITLE_LEN
      ("[" ++ DEFAULT_WINDOW_PREFIX ++ "] - " ++ file_path o)%string in
  window <- glfwCreateWindow DEFAULT_WINDOW_W DEFAULT_WINDOW_H window_title ;;
  if negb window then
    fprintf stderr ("[FAIL] - Unable to create the window" ++ nl) [] ;;
    ret EXIT_FAILURE
  else
  call EvGlfwMakeContextCurrent ;;
  size <- glfwGetWindowSize (startup_window_size env) ;;
  failed <- gl3wInit ;;
  if failed then
    fprintf stderr ("[FAIL] - gl3w failed to initialize" ++ nl) [] ;;
    ret EXIT_FAILURE
  else
  call (EvGlViewport 0 0 DEFAULT_WINDOW_W DEFAULT_WINDOW_H) ;;
  call EvNkInit ;;
  call EvNkFontStashBegin ;;
  call EvNkFontStashEnd ;;
  opened <- file_reader_init (file_path o) (buffer_size o) ;;
  match opened with
  | None =>
      fprintf stderr
        ("[FAIL] - Failed to read input file in argument" ++ nl) [] ;;
      ret EXIT_FAILURE
  | Some r =>
  fprintf stdout
    ("[INFO] - Initially read %lu bytes into the buffer" ++ nl)
    [ArgInt (FileReader.buffer_size r)] ;;
  shown <- raster_display_init (fst size) (snd size)
             (FileReader.file_size r) (FileReader.buffer_size r) ;;
  match shown with
  | None =>
      fprintf stderr
        ("[FAIL] - Could not initialize raster display" ++ nl) [] ;;
      ret EXIT_FAILURE
  | Some d =>
  fprintf stdout ("[INFO] - Initialized program and display" ++ nl) [] ;;
  frame_loop fuel 0%nat
    {| window_w := fst size; window_h := snd size;
       display := d; reader := r |} ;;
  call EvDisplayFree ;;
  call EvNkShutdown ;;
  call EvGlfwTerminate ;;
  call EvFileReaderFree ;;
  fprintf stdout ("[INFO] - Closed the program successfully" ++ nl) [] ;;
  ret EXIT_SUCCESS
  end
  end.

(** A run of [main]: its trace and how it ends. *)
Definition main (fuel : nat) : list event * outcome :=
  match main_body fuel with
  | (t, Continue status) => (t, Exited status)
  | (t, Halt o) => (t, o)
  end.

End Main.

(** ** Sample inputs *)

Definition opt_file (p : string) : getopt_result :=
  {| opt := code "f"; optarg := p |}.
Definition opt_size (n : string) : getopt_result :=
  {| opt := code "s"; optarg := n |}.
Definition opt_help : getopt_result := {| opt := code "h"; optarg := "" |}.
Definition opt_unknown : getopt_result := {| opt := code "?"; optarg := "" |}.

Definition ten_bytes : list byte :=
  [x00; x01; x02; x03; x04; x05; x06; x07; x08; x09].

(** A file system holding [ten_bytes] under the name [data.bin]. *)
Definition sample_fs (p : string) : FileReader.fs_entry :=
  if String.eqb p "data.bin" then FileReader.Regular ten_bytes
  else FileReader.Missing.

(** A healthy platform: the window asks to close at frame [frames], the
    interrupt flag is seen set from frame [stop] on, the reads named by
    [reads] succeed. *)
Definition sample_env (opts : list getopt_result) (frames stop : nat)
    (reads : nat -> bool) : environment :=
  {| getopt_results := opts;
     glfw_init_ok := true;
     create_window_ok := true;
     startup_window_size := (1024, 768);
     gl3w_init_ok := true;
     file_system := sample_fs;
     window_should_close := fun k => Nat.leb frames k;
     dialog_offset := fun k => 3 * Z.of_nat k;
     read_ok := reads;
     frame_window_size := fun k => (800 + Z.of_nat k, 600);
     interrupt_flag := fun k => Nat.leb stop k |}.


(** The same outside world with another command line. *)
Definition with_getopt_results (env : environment)
    (results : list getopt_result) : environment :=
  {| getopt_results := results;
     glfw_init_ok := glfw_init_ok env;
     create_window_ok := create_window_ok env;
     startup_window_size := startup_window_size env;
     gl3w_init_ok := gl3w_init_ok env;
     file_system := file_system env;
     window_should_close := window_should_close env;
     dialog_offset := dialog_offset env;
     read_ok := read_ok env;
     frame_window_size := frame_window_size env;
     interrupt_flag := interrupt_flag env |}.

(** ** Vocabulary for command lines and traces *)

(** [getopt_long] reported the option character [c] at some point. *)
Definition option_given (c : ascii) (results : list getopt_result) : bool :=
  existsb (fun r => opt r =? code c) results.

(** With the option table of [main], [getopt_long] only ever returns the
    characters [f], [s], [h] and [?] before its final [-1]. *)
Definition getopt_codes_ok (results : list getopt_result) : bool :=
  forallb (fun r => (opt r =? code "f") || (opt r =? code "s") ||
                    (opt r =? code "h") || (opt r =? code "?")) results.

(** The call [print_help] makes. *)
Definition usage_call : event := EvFprintf stdout help_text [].

Definition is_window_created (e : event) : bool :=
  match e with EvGlfwCreateWindow _ _ _ true => true | _ => false end.

Definition is_open_attempt (e : event) : bool :=
  match e with EvFileReaderInit _ _ _ => true | _ => false end.

(** A call of [fprintf (stderr, ...)] made by [main] itself.  What
    [getopt_long] writes on [stderr], and what [glfw_error_callback] writes
    when GLFW invokes it, are not calls of [main] and not in its trace. *)
Definition is_diagnostic (e : event) : bool :=
  match e with EvFprintf stderr _ _ => true | _ => false end.

Definition is_reader_free (e : event) : bool :=
  match e with EvFileReaderFree => true | _ => false end.

Definition is_flag_poll (e : event) : bool :=
  match e with EvInterruptFlag _ => true | _ => false end.

Definition is_frame_start (e : event) : bool :=
  match e with EvGlfwPollEvents => true | _ => false end.

Definition window_created (t : list event) : bool := existsb is_window_created t.
Definition open_attempted (t : list event) : bool := existsb is_open_attempt t.
(** [main] itself has printed a diagnostic on [stderr]. *)
Definition diagnostic_printed (t : list event) : bool := existsb is_diagnostic t.

Definition count (p : event -> bool) (t : list event) : nat :=
  List.length (filter p t).

(** ** The run of [main] around its frame loop *)

(** The conditions under which [main] gets to its frame loop: the scan
    ends with the locals [o], a file name was given, the platform comes up,
    the reader [r] and the display [d] are created. *)
Definition starts_up (max : nat) (env : environment) (o : options)
    (r : FileReader.file_reader) (d : Display.raster_display) : Prop :=
  scan_options max (getopt_results env) initial_options = ([], Continue o) /\
  0 < strlen (file_path o) /\
  glfw_init_ok env = true /\
  create_window_ok env = true /\
  gl3w_init_ok env = true /\
  FileReader.file_reader_init (file_system env) (file_path o) (buffer_size o)
    = inr r /\
  Display.raster_display_init
    (fst (startup_window_size env)) (snd (startup_window_size env))
    (FileReader.file_size r) (FileReader.buffer_size r) = Some d.

(** The locals on entry to the frame loop. *)
Definition first_locals (env : environment) (r : FileReader.file_reader)
    (d : Display.raster_display) : locals :=
  {| window_w := fst (startup_window_size env);
     window_h := snd (startup_window_size env);
     display := d;
     reader := r |}.

Definition window_title (o : options) : string :=
  snprintf MAX_TITLE_LEN
    ("[" ++ DEFAULT_WINDOW_PREFIX ++ "] - " ++ file_path o)%string.

(** The calls of a successful start-up, in order. *)
Definition prelude (env : environment) (o : options)
    (r : FileReader.file_reader) : list event :=
  [ EvSignal;
    EvGlfwSetErrorCallback;
    EvGlfwInit true;
    EvGlfwWindowHint (GLFW_CONTEXT_VERSION_MAJOR 3);
    EvGlfwWindowHint (GLFW_CONTEXT_VERSION_MINOR 3);
    EvGlfwWindowHint GLFW_OPENGL_PROFILE_CORE;
    EvGlfwCreateWindow DEFAULT_WINDOW_W DEFAULT_WINDOW_H (window_title o) true;
    EvGlfwMakeContextCurrent;
    EvGlfwGetWindowSize (fst (startup_window_size env))
                        (snd (startup_window_size env));
    EvGl3wInit true;
    EvGlViewport 0 0 DEFAULT_WINDOW_W DEFAULT_WINDOW_H;
    EvNkInit;
    EvNkFontStashBegin;
    EvNkFontStashEnd;
    EvFileReaderInit (file_path o) (buffer_size o) true;
    EvFprintf stdout
      ("[INFO] - Initially read %lu bytes into the buffer" ++ nl)
      [ArgInt (FileReader.buffer_size r)];
    EvDisplayInit (fst (startup_window_size env))
                  (snd (startup_window_size env))
                  (FileReader.file_size r) (FileReader.buffer_size r) true;
    EvFprintf stdout ("[INFO] - Initialized program and display" ++ nl) [] ].

(** The calls of the shutdown, in order. *)
Definition coda : list event :=
  [ EvDisplayFree;
    EvNkShutdown;
    EvGlfwTerminate;
    EvFileReaderFree;
    EvFprintf stdout ("[INFO] - Closed the program successfully" ++ nl) [] ].

(** The calls of frame [k] entered with the locals [st], and the locals it
    leaves. *)
Definition frame_calls (env : environment) (k : nat) (st : locals)
    : list event :=
  fst (frame env k st).

Definition after_frame (env : environment) (k : nat) (st : locals) : locals :=
  let d := Display.set_file_offset
             (Display.set_viewport (display st) (window_w st) (window_h st))
             (dialog_offset env k) in
  {| window_w := fst (frame_window_size env k);
     window_h := snd (frame_window_size env k);
     display := d;
     reader := fst (FileReader.file_reader_tick (reader st)
                      (Display.file_offset d) (read_ok env k)) |}.

(** Calls that only the frame loop makes. *)
Definition in_frame (e : event) : bool :=
  match e with
  | EvGlfwWindowShouldClose _ | EvGlfwPollEvents | EvNkNewFrame
  | EvDisplayDrawDialog _ | EvFileReaderTick _ _ _ | EvDisplayDraw _ _
  | EvDisplayRender _ | EvNkRender _ _ | EvGlfwSwapBuffers
  | EvInterruptFlag _ => true
  | _ => false
  end.

(** Calls the frame loop can make. *)
Definition loop_call (e : event) : bool :=
  in_frame e ||
  match e with
  | EvGlfwGetWindowSize _ _ | EvFprintf stdout _ _ => true
  | _ => false
  end.

(** ** The viewport seen by the draws *)

(** What a trace tells about the viewport: the answers of
    [glfwGetWindowSize], and the dimensions the display carries at each
    [raster_display_draw]. *)
Inductive viewport_entry : Type :=
| Queried (size : Z * Z)
| Drawn (size : Z * Z).

Definition viewport_entries (e : event) : list viewport_entry :=
  match e with
  | EvGlfwGetWindowSize width height => [Queried (width, height)]
  | EvDisplayDraw d _ => [Drawn (Display.w d, Display.h d)]
  | _ => []
  end.

Definition viewport_log (t : list event) : list viewport_entry :=
  flat_map viewport_entries t.


(** The same outside world with other fates for the reads. *)
Definition with_read_ok (env : environment) (reads : nat -> bool)
    : environment :=
  {| getopt_results := getopt_results env;
     glfw_init_ok := glfw_init_ok env;
     create_window_ok := create_window_ok env;
     startup_window_size := startup_window_size env;
     gl3w_init_ok := gl3w_init_ok env;
     file_system := file_system env;
     window_should_close := window_should_close env;
     dialog_offset := dialog_offset env;
     read_ok := reads;
     frame_window_size := frame_window_size env;
     interrupt_flag := interrupt_flag env |}.

(** The locals of a run on [data.bin] with a buffer of four bytes, as the
    frame loop is entered. *)
Definition sample_reader : FileReader.file_reader :=
  FileReader.refill
    {| FileReader.path := "data.bin";
       FileReader.handle := ten_bytes;
       FileReader.file_size := 10;
       FileReader.buffer_size := 4;
       FileReader.buffer := [];
       FileReader.window_offset := 0;
       FileReader.valid_length := 0 |} 0.

Definition sample_display : Display.raster_display :=
  {| Display.w := 1024; Display.h := 768; Display.file_offset := 0;
     Display.total_size := 10; Display.window_size := 4 |}.

Definition sample_locals : locals :=
  {| window_w := 1024; window_h := 768;
     display := sample_display; reader := sample_reader |}.

(** ** The two callbacks of [main.c] *)



(** [glfw_error_callback]: one line on [stderr]. *)
Definition glfw_error_callback (error_code : Z) (msg : string) : prog unit :=
  fprintf stderr ("[FAIL] - Error code = %d: %s" ++ nl)
    [ArgInt error_code; ArgStr msg].




(** ** What [getopt_long] writes itself *)

(** The lines [getopt_long] has written on [stderr] by the time the scan
    of [main] ends.  [main] never clears [opterr] and its option string
    [f:s:h] does not begin with a colon, so every ['?'] that [getopt_long]
    returns comes with one message of its own; [main] leaves at the first
    ['?'] or [h], so there is at most one. *)
Fixpoint getopt_long_complaints (results : list getopt_result) : nat :=
  match results with
  | [] => 0
  | r :: rest =>
      if opt r =? -1 then 0
      else if (opt r =? code "f") || (opt r =? code "s") then
        getopt_long_complaints rest
      else if opt r =? code "?" then 1
      else 0
  end.

(** ** More vocabulary for command lines and traces *)

(** The argument of the last occurrence of option [c]. *)
Definition last_optarg (c : ascii) (results : list getopt_result)
    : option string :=
  option_map optarg (find (fun r => opt r =? code c) (rev results)).

(** The returns of [getopt_long] that are arguments of [-f] or [-s]. *)
Definition settings_only (results : list getopt_result) : bool :=
  forallb (fun r => (opt r =? code "f") || (opt r =? code "s")) results.

Definition is_glfw_up (e : event) : bool :=
  match e with EvGlfwInit true => true | _ => false end.

Definition is_window_attempt (e : event) : bool :=
  match e with EvGlfwCreateWindow _ _ _ _ => true | _ => false end.

Definition is_gl3w_attempt (e : event) : bool :=
  match e with EvGl3wInit _ => true | _ => false end.

Definition is_gl3w_up (e : event) : bool :=
  match e with EvGl3wInit true => true | _ => false end.

Definition is_open_ok (e : event) : bool :=
  match e with EvFileReaderInit _ _ true => true | _ => false end.

Definition is_display_attempt (e : event) : bool :=
  match e with EvDisplayInit _ _ _ _ _ => true | _ => false end.

Definition is_display_ok (e : event) : bool :=
  match e with EvDisplayInit _ _ _ _ true => true | _ => false end.

(** The calls of the shutdown that give something back. *)
Definition is_release (e : event) : bool :=
  match e with
  | EvDisplayFree | EvNkShutdown | EvGlfwTerminate | EvFileReaderFree => true
  | _ => false
  end.

Definition is_interrupt_report (e : event) : bool :=
  match e with
  | EvFprintf stdout format [] =>
      String.eqb format ("[INFO] - CTRL-C detected..." ++ nl)
  | _ => false
  end.

Definition is_abort (e : event) : bool :=
  match e with EvAbort => true | _ => false end.
(** * Properties *)

(** ** The file reader *)

Module FileReaderFacts.
Import FileReader.

Lemma read_at_length (bytes : list byte) (off n : Z) :
  0 <= off -> 0 <= n -> off + n <= Z.of_nat (List.length bytes) ->
  Z.of_nat (List.length (read_at bytes off n)) = n.
Proof.
  intros Hoff Hn Hfit. unfold read_at.
  rewrite length_firstn, length_skipn. lia.
Qed.

Lemma tick_target_range (r : file_reader) (o : Z) :
  well_formed r ->
  tick_target r o = Z.max 0 (Z.min o (file_size r - buffer_size r)) /\
  0 <= tick_target r o <= file_size r - buffer_size r.
Proof.
  intros (_ & Hcap & _). unfold tick_target, clamp.
  destruct (Z.ltb_spec (file_size r) (buffer_size r)); [lia|].
  destruct (Z.ltb_spec o 0);
    destruct (Z.ltb_spec (file_size r - buffer_size r) o); lia.
Qed.

Lemma refill_well_formed (r : file_reader) (target : Z) :
  file_size r = Z.of_nat (List.length (handle r)) ->
  0 <= buffer_size r <= file_size r ->
  0 <= target <= file_size r - buffer_size r ->
  well_formed (refill r target).
Proof.
  intros Hsize Hcap Htarget. unfold well_formed, refill; simpl.
  repeat split; try lia.
  apply read_at_length; lia.
Qed.

Lemma tick_well_formed (r : file_reader) (o : Z) (ok : bool) :
  well_formed r -> well_formed (fst (file_reader_tick r o ok)).
Proof.
  intros Hwf. destruct (tick_target_range r o Hwf) as [_ Hrange].
  unfold file_reader_tick.
  destruct (tick_target r o =? window_offset r); [exact Hwf|].
  destruct ok; [|exact Hwf]. simpl.
  destruct Hwf as (Hsize & Hcap & _).
  now apply refill_well_formed.
Qed.

Lemma tick_sizes (r : file_reader) (o : Z) (ok : bool) :
  file_size (fst (file_reader_tick r o ok)) = file_size r /\
  buffer_size (fst (file_reader_tick r o ok)) = buffer_size r.
Proof.
  unfold file_reader_tick.
  destruct (tick_target r o =? window_offset r); [now split|].
  destruct ok; now split.
Qed.

Lemma ticks_invariant (history : list (Z * bool)) (r : file_reader) :
  well_formed r ->
  well_formed (ticks r history) /\
  file_size (ticks r history) = file_size r /\
  buffer_size (ticks r history) = buffer_size r.
Proof.
  revert r. induction history as [|[o ok] rest IH]; intros r Hwf.
  - split; [exact Hwf | split; reflexivity].
  - destruct (tick_sizes r o ok) as [Hs Hb].
    destruct (IH _ (tick_well_formed r o ok Hwf)) as (Hwf' & Hs' & Hb').
    unfold ticks in *. simpl.
    split; [exact Hwf' | split; congruence].
Qed.

(** A tick whose read succeeds lands on its target with a full buffer. *)
Lemma tick_lands (r : file_reader) (o : Z) :
  well_formed r ->
  window_offset (fst (file_reader_tick r o true)) = tick_target r o /\
  valid_length (fst (file_reader_tick r o true)) = buffer_size r.
Proof.
  intros Hwf. destruct (tick_target_range r o Hwf) as [_ Hrange].
  pose proof Hwf as (Hsize & Hcap & _ & Hvalid & _).
  unfold file_reader_tick.
  destruct (Z.eqb_spec (tick_target r o) (window_offset r)) as [Heq|Hne].
  - simpl. now split.
  - simpl. split; [reflexivity|]. apply read_at_length; lia.
Qed.

Lemma init_well_formed (fs : string -> fs_entry) (p : string)
    (contents : list byte) (requested : Z) :
  fs p = Regular contents ->
  exists r, file_reader_init fs p requested = inr r /\
    well_formed r /\
    file_size r = Z.of_nat (List.length contents) /\
    buffer_size r =
      Z.min (if requested <=? 0 then DEFAULT_BUFFER_SIZE else requested)
            (Z.of_nat (List.length contents)).
Proof.
  intros Hfs. unfold file_reader_init. rewrite Hfs.
  eexists; split; [reflexivity|]. split; [|now split].
  apply refill_well_formed; simpl; [reflexivity| |];
    unfold DEFAULT_BUFFER_SIZE; destruct (requested <=? 0) eqn:E; lia.
Qed.

(** C1 (as amended).  A file of size [S] is opened with a positive
    requested capacity [B]; after any history of ticks, a tick to offset
    [o] whose read succeeds leaves, when [B <= S], the window offset at
    [o] clamped to [0 .. S - B] and [B] valid bytes, and when [B > S] the
    window offset at [0] and [S] valid bytes. *)
Theorem tick_window_after_open
    (fs : string -> fs_entry) (p : string) (contents : list byte)
    (B : Z) (history : list (Z * bool)) (o : Z) :
  fs p = Regular contents ->
  0 < B ->
  let S := Z.of_nat (List.length contents) in
  exists r, file_reader_init fs p B = inr r /\
    let r' := fst (file_reader_tick (ticks r history) o true) in
    (B <= S ->
       window_offset r' = Z.max 0 (Z.min o (S - B)) /\ valid_length r' = B) /\
    (B > S -> window_offset r' = 0 /\ valid_length r' = S).
Proof.
  intros Hfs HB S.
  destruct (init_well_formed fs p contents B Hfs) as (r & Hr & Hwf & Hs & Hb).
  exists r. split; [exact Hr|].
  destruct (ticks_invariant history r Hwf) as (Hwf' & Hs' & Hb').
  destruct (tick_lands (ticks r history) o Hwf') as [Hoff Hlen].
  destruct (tick_target_range (ticks r history) o Hwf') as [Htarget _].
  destruct (Z.leb_spec B 0); [lia|].
  cbv zeta. rewrite Hoff, Hlen, Htarget, Hs', Hb', Hs, Hb. fold S.
  split; intros HBS; split; lia.
Qed.

(** The scenario of the specification: ten bytes, capacity four, a tick
    to [0] and then a tick to [100]. *)
Lemma tick_window_after_open_witness :
  exists r, file_reader_init sample_fs "data.bin" 4 = inr r /\
    let r' := fst (file_reader_tick (ticks r [(0, true)]) 100 true) in
    (4 <= 10 -> window_offset r' = Z.max 0 (Z.min 100 (10 - 4)) /\
                valid_length r' = 4) /\
    (4 > 10 -> window_offset r' = 0 /\ valid_length r' = 10).
Proof.
  apply (tick_window_after_open sample_fs "data.bin" ten_bytes 4
           [(0, true)] 100); [reflexivity | lia].
Defined.

(** C1 as stated fails in two ways.  For a requested capacity of [0] the
    default size is used, the capacity becomes the file size [10], and a
    tick to offset [5] leaves the window at [0] with [10] valid bytes,
    where the claim asks for offset [clamp (5, 0, 10 - 0) = 5] and [0]
    valid bytes.  And with a capacity of [4], a tick to offset [5] whose
    read fails leaves the window at [0], where the claim asks for
    [clamp (5, 0, 10 - 4) = 5]. *)
Lemma tick_window_claim_fails :
  (exists r, file_reader_init sample_fs "data.bin" 0 = inr r /\
     let r' := fst (file_reader_tick r 5 true) in
     0 <= Z.of_nat (List.length ten_bytes) /\
     window_offset r' = 0 /\
     window_offset r' <>
       Z.max 0 (Z.min 5 (Z.of_nat (List.length ten_bytes) - 0)) /\
     valid_length r' = 10 /\
     valid_length r' <> 0) /\
  (exists r, file_reader_init sample_fs "data.bin" 4 = inr r /\
     let r' := fst (file_reader_tick r 5 false) in
     4 <= Z.of_nat (List.length ten_bytes) /\
     window_offset r' = 0 /\
     window_offset r' <>
       Z.max 0 (Z.min 5 (Z.of_nat (List.length ten_bytes) - 4))).
Proof.
  split; (eexists; split; [reflexivity|]); vm_compute;
    repeat split; congruence.
Qed.

(** The scenario of the specification, step by step. *)
Example ten_bytes_scenario :
  exists r, file_reader_init sample_fs "data.bin" 4 = inr r /\
    buffer (fst (file_reader_tick r 0 true)) = [x00; x01; x02; x03] /\
    window_offset (fst (file_reader_tick r 0 true)) = 0 /\
    buffer (fst (file_reader_tick r 100 true)) = [x06; x07; x08; x09] /\
    window_offset (fst (file_reader_tick r 100 true)) = 6.
Proof. eexists. split; [reflexivity|]. repeat split. Qed.

End FileReaderFacts.

(** ** The option scan *)

Lemma code_f : code "f" = 102. Proof. reflexivity. Qed.
Lemma code_s : code "s" = 115. Proof. reflexivity. Qed.
Lemma code_h : code "h" = 104. Proof. reflexivity. Qed.
Lemma code_unknown : code "?" = 63. Proof. reflexivity. Qed.

Ltac codes :=
  rewrite ?code_f, ?code_s, ?code_h, ?code_unknown in *.

(** Case analysis on one return of [getopt_long]. *)
Ltac on_opt r :=
  destruct (Z.eqb_spec (opt r) (-1));
  destruct (Z.eqb_spec (opt r) 102);
  destruct (Z.eqb_spec (opt r) 115);
  destruct (Z.eqb_spec (opt r) 104);
  destruct (Z.eqb_spec (opt r) 63);
  try lia; simpl in *; try discriminate.

(** A scan that meets [h] or [?] prints the usage and leaves with success. *)
Lemma scan_help_path (max : nat) (results : list getopt_result) (o : options) :
  getopt_codes_ok results = true ->
  option_given "h" results || option_given "?" results = true ->
  scan_options max results o = ([usage_call], Halt (Exited EXIT_SUCCESS)).
Proof.
  unfold getopt_codes_ok, option_given. revert o.
  induction results as [|r rest IH]; intros o Hok Hany; simpl in *; codes.
  - discriminate.
  - on_opt r; try reflexivity; apply IH; assumption.
Qed.

(** A scan that meets neither ends with the locals it built, in silence. *)
Lemma scan_quiet_path (max : nat) (results : list getopt_result) (o : options) :
  getopt_codes_ok results = true ->
  option_given "h" results = false ->
  option_given "?" results = false ->
  exists o', scan_options max results o = ([], Continue o') /\
    (option_given "f" results = false -> file_path o' = file_path o) /\
    (option_given "s" results = false -> buffer_size o' = buffer_size o).
Proof.
  unfold getopt_codes_ok, option_given. revert o.
  induction results as [|r rest IH]; intros o Hok Hh Hu; simpl in *; codes.
  - exists o. repeat split.
  - on_opt r.
    + destruct (IH {| file_path := strncpy (optarg r) max;
                      buffer_size := buffer_size o |} Hok Hh Hu)
        as (o' & Hscan & _ & Hsize).
      exists o'. split; [exact Hscan|]. split; [discriminate|exact Hsize].
    + destruct (IH {| file_path := file_path o;
                      buffer_size := strtol (optarg r) |} Hok Hh Hu)
        as (o' & Hscan & Hpath & _).
      exists o'. split; [exact Hscan|]. split; [exact Hpath|discriminate].
Qed.

(** Whatever [getopt_long] returns, a scan is silent when it completes,
    and a scan without [s] leaves the buffer size alone. *)
Lemma scan_outcomes (max : nat) (results : list getopt_result) (o : options) :
  (exists o', scan_options max results o = ([], Continue o') /\
     (option_given "s" results = false -> buffer_size o' = buffer_size o)) \/
  scan_options max results o = ([usage_call], Halt (Exited EXIT_SUCCESS)) \/
  scan_options max results o = ([EvAbort], Halt Aborted).
Proof.
  unfold option_given. revert o.
  induction results as [|r rest IH]; intros o; simpl; codes.
  - left. exists o. split; [reflexivity|trivial].
  - destruct (Z.eqb_spec (opt r) (-1)).
    { left. exists o. split; [reflexivity|].
      intros _. reflexivity. }
    destruct (Z.eqb_spec (opt r) 102).
    { destruct (IH {| file_path := strncpy (optarg r) max;
                      buffer_size := buffer_size o |})
        as [(o' & Hscan & Hsize) | H]; [left|right; exact H].
      exists o'. split; [exact Hscan|].
      destruct (Z.eqb_spec (opt r) 115); [lia|exact Hsize]. }
    destruct (Z.eqb_spec (opt r) 115).
    { destruct (IH {| file_path := file_path o;
                      buffer_size := strtol (optarg r) |})
        as [(o' & Hscan & _) | H]; [left|right; exact H].
      exists o'. split; [exact Hscan|]. discriminate. }
    destruct (Z.eqb_spec (opt r) 104); [right; left; reflexivity|].
    destruct (Z.eqb_spec (opt r) 63); [right; left; reflexivity|].
    right; right; reflexivity.
Qed.

(** ** The shape of a run *)

Lemma main_help (max : nat) (env : environment) (fuel : nat) :
  scan_options max (getopt_results env) initial_options
    = ([usage_call], Halt (Exited EXIT_SUCCESS)) ->
  main max env fuel = ([EvSignal; usage_call], Exited EXIT_SUCCESS).
Proof.
  intros Hscan. unfold main, main_body. rewrite Hscan. reflexivity.
Qed.

Lemma frame_unfold (env : environment) (k : nat) (st : locals) :
  frame env k st = (frame_calls env k st, Continue (after_frame env k st)).
Proof. reflexivity. Qed.

(** One turn of the loop. *)
Lemma frame_loop_step (env : environment) (fuel k : nat) (st : locals) :
  frame_loop env (S fuel) k st =
    if window_should_close env k then
      ([EvGlfwWindowShouldClose true], Continue st)
    else if interrupt_flag env k then
      (EvGlfwWindowShouldClose false :: frame_calls env k st ++
         [EvInterruptFlag true;
          EvFprintf stdout ("[INFO] - CTRL-C detected..." ++ nl) []],
       Continue (after_frame env k st))
    else
      (EvGlfwWindowShouldClose false :: frame_calls env k st ++
         EvInterruptFlag false ::
         fst (frame_loop env fuel (S k) (after_frame env k st)),
       snd (frame_loop env fuel (S k) (after_frame env k st))).
Proof.
  cbn [frame_loop]. unfold glfwWindowShouldClose, read_interrupt_flag.
  rewrite frame_unfold.
  destruct (window_should_close env k); [reflexivity|].
  destruct (interrupt_flag env k); [reflexivity|].
  cbn. destruct (frame_loop env fuel (S k) (after_frame env k st)).
  reflexivity.
Qed.

Lemma main_started (max : nat) (env : environment) (fuel : nat) (o : options)
    (r : FileReader.file_reader) (d : Display.raster_display) :
  starts_up max env o r d ->
  main max env fuel =
    match frame_loop env fuel 0 (first_locals env r d) with
    | (t, Continue _) => (prelude env o r ++ t ++ coda, Exited EXIT_SUCCESS)
    | (t, Halt out) => (prelude env o r ++ t, out)
    end.
Proof.
  intros (Hscan & Hpath & Hglfw & Hwin & Hgl & Hopen & Hshow).
  unfold main, main_body, glfwInit, glfwCreateWindow, glfwGetWindowSize,
    gl3wInit,
    file_reader_init, raster_display_init.
  rewrite Hscan, Hglfw, Hwin, Hgl.
  cbn [bind call ret fprintf print_help fst snd app negb].
  destruct (Z.leb_spec (strlen (file_path o)) 0); [lia|].
  rewrite Hopen.
  cbn [bind call ret fprintf print_help fst snd app negb].
  rewrite Hshow.
  cbn [bind call ret fprintf print_help fst snd app negb].
  fold (first_locals env r d).
  destruct (frame_loop env fuel 0 (first_locals env r d)) as [t [st|out]];
    reflexivity.
Qed.

Lemma frame_loop_calls (env : environment) (fuel k : nat) (st : locals) :
  forallb loop_call (fst (frame_loop env fuel k st)) = true.
Proof.
  revert k st. induction fuel as [|fuel IH]; intros k st; [reflexivity|].
  rewrite frame_loop_step.
  destruct (window_should_close env k); [reflexivity|].
  destruct (interrupt_flag env k); [reflexivity|].
  cbn. apply IH.
Qed.

Lemma frame_loop_call (env : environment) (fuel k : nat) (st : locals)
    (t : list event) (s : step locals) (e : event) :
  frame_loop env fuel k st = (t, s) -> In e t -> loop_call e = true.
Proof.
  intros Hloop Hin. pose proof (frame_loop_calls env fuel k st) as Hall.
  rewrite Hloop in Hall. rewrite forallb_forall in Hall. now apply Hall.
Qed.

Ltac run_step := cbn [bind call ret fprintf print_help fst snd app negb].

(** The cases of a run whose scan [Hscan] is known, for proofs that look
    at every way [main] can end. *)
Ltac run_cases env fuel Hscan :=
  unfold main, main_body, glfwInit, glfwCreateWindow, glfwGetWindowSize,
    gl3wInit, file_reader_init, raster_display_init;
  rewrite Hscan; run_step;
  match goal with
  | |- context [strlen (file_path ?o) <=? 0] =>
      destruct (Z.leb_spec (strlen (file_path o)) 0)
  end;
  [| destruct (glfw_init_ok env) eqn:Hglfw;
     [ destruct (create_window_ok env) eqn:Hwin;
       [ destruct (gl3w_init_ok env) eqn:Hgl;
         [ destruct (FileReader.file_reader_init _ _ _) as [err|r] eqn:Hopen;
           [| run_step;
              destruct (Display.raster_display_init _ _ _ _) as [d|] eqn:Hshow;
              [ run_step;
                destruct (frame_loop env fuel 0 _) as [t [st|out]] eqn:Hloop |]]
         |]
       |]
     |]];
  run_step.

(** ** Command line *)

(** C5.  When the command line carries [-h] or [--help], the run consists
    of installing the signal handler and printing the usage text; it ends
    with status [0]; no file is opened and no window is set up. *)
Theorem help_prints_usage_and_succeeds
    (max : nat) (env : environment) (fuel : nat) :
  getopt_codes_ok (getopt_results env) = true ->
  option_given "h" (getopt_results env) = true ->
  main max env fuel = ([EvSignal; usage_call], Exited EXIT_SUCCESS) /\
  open_attempted (fst (main max env fuel)) = false /\
  window_created (fst (main max env fuel)) = false.
Proof.
  intros Hok Hh.
  assert (Hrun : main max env fuel = ([EvSignal; usage_call], Exited EXIT_SUCCESS)).
  { apply main_help, scan_help_path; [exact Hok|]. now rewrite Hh. }
  rewrite Hrun. repeat split.
Qed.

Lemma help_prints_usage_and_succeeds_witness :
  let env := sample_env [opt_file "data.bin"; opt_help] 2 5 (fun _ => true) in
  main 256 env 10 = ([EvSignal; usage_call], Exited EXIT_SUCCESS) /\
  open_attempted (fst (main 256 env 10)) = false /\
  window_created (fst (main 256 env 10)) = false.
Proof.
  apply (help_prints_usage_and_succeeds 256
           (sample_env [opt_file "data.bin"; opt_help] 2 5 (fun _ => true)) 10);
    reflexivity.
Defined.

(** When only [-f] and [-s] come before the first ['?'], [getopt_long]
    has written one message of its own. *)
Lemma complaint_on_unknown_option (results : list getopt_result) :
  getopt_codes_ok results = true ->
  option_given "h" results = false ->
  option_given "?" results = true ->
  getopt_long_complaints results = 1%nat.
Proof.
  unfold getopt_codes_ok, option_given.
  induction results as [|r rest IH]; intros Hok Hh Hu; simpl in *; codes.
  - discriminate.
  - on_opt r; try reflexivity; apply IH; assumption.
Qed.

(** C9 (as amended).  When [getopt_long] returns ['?'] for an
    unrecognised option, [main] makes the calls of a [--help] run and no
    other: the usage text is printed, the status is [0], no file is opened
    and no window is created.  The run is not that of [--help] in one
    respect: [getopt_long] has written its own message on [stderr] (one
    line, unless a help option ended the scan before), which it does not do
    for [--help]. *)
Theorem unknown_option_prints_usage
    (max : nat) (env : environment) (fuel : nat) :
  getopt_codes_ok (getopt_results env) = true ->
  option_given "?" (getopt_results env) = true ->
  main max env fuel = ([EvSignal; usage_call], Exited EXIT_SUCCESS) /\
  main max env fuel = main max (with_getopt_results env [opt_help]) fuel /\
  open_attempted (fst (main max env fuel)) = false /\
  window_created (fst (main max env fuel)) = false /\
  (option_given "h" (getopt_results env) = false ->
   getopt_long_complaints (getopt_results env) = 1%nat) /\
  getopt_long_complaints
    (getopt_results (with_getopt_results env [opt_help])) = 0%nat.
Proof.
  intros Hok Hu.
  assert (Hrun : main max env fuel = ([EvSignal; usage_call], Exited EXIT_SUCCESS)).
  { apply main_help, scan_help_path; [exact Hok|].
    rewrite Hu. apply orb_true_r. }
  rewrite Hrun. repeat split.
  intros Hh. now apply complaint_on_unknown_option.
Qed.

Lemma unknown_option_prints_usage_witness :
  let env := sample_env [opt_file "data.bin"; opt_unknown] 2 5 (fun _ => true) in
  main 256 env 10 = ([EvSignal; usage_call], Exited EXIT_SUCCESS) /\
  main 256 env 10 = main 256 (with_getopt_results env [opt_help]) 10 /\
  open_attempted (fst (main 256 env 10)) = false /\
  window_created (fst (main 256 env 10)) = false /\
  (option_given "h" (getopt_results env) = false ->
   getopt_long_complaints (getopt_results env) = 1%nat) /\
  getopt_long_complaints
    (getopt_results (with_getopt_results env [opt_help])) = 0%nat.
Proof.
  apply (unknown_option_prints_usage 256
           (sample_env [opt_file "data.bin"; opt_unknown] 2 5 (fun _ => true))
           10);
    reflexivity.
Defined.

(** C9 as stated fails on [-x]: the calls of [main] are those of a
    [--help] run, but the run is not exactly that of [--help], for
    [getopt_long] has written a message on [stderr], which it does not do
    for [--help]. *)
Lemma unknown_option_differs_from_help :
  let env := sample_env [opt_unknown] 2 5 (fun _ => true) in
  option_given "?" (getopt_results env) = true /\
  main 256 env 10 = main 256 (with_getopt_results env [opt_help]) 10 /\
  getopt_long_complaints (getopt_results env) = 1%nat /\
  getopt_long_complaints
    (getopt_results (with_getopt_results env [opt_help])) = 0%nat /\
  getopt_long_complaints (getopt_results env) <>
    getopt_long_complaints
      (getopt_results (with_getopt_results env [opt_help])).
Proof.
  cbv zeta. repeat split. discriminate.
Qed.




(** C3 (as amended).  When the scan ends with a file name that the reader
    cannot open, the run prints a diagnostic on [stderr] and ends with
    status [1].  The file is opened after the platform is set up: a window
    is created as soon as GLFW comes up and grants one, and the open is
    attempted only once the window and the GL loader are there. *)
Theorem unopenable_file_fails
    (max : nat) (env : environment) (fuel : nat) (o : options)
    (err : FileReader.io_error) :
  scan_options max (getopt_results env) initial_options = ([], Continue o) ->
  0 < strlen (file_path o) ->
  FileReader.file_reader_init (file_system env) (file_path o) (buffer_size o)
    = inl err ->
  snd (main max env fuel) = Exited EXIT_FAILURE /\
  diagnostic_printed (fst (main max env fuel)) = true /\
  window_created (fst (main max env fuel))
    = glfw_init_ok env && create_window_ok env /\
  open_attempted (fst (main max env fuel))
    = glfw_init_ok env && create_window_ok env && gl3w_init_ok env.
Proof.
  intros Hscan Hpath Hfail.
  unfold main, main_body, glfwInit, glfwCreateWindow, glfwGetWindowSize,
    gl3wInit,
    file_reader_init.
  rewrite Hscan.
  cbn [bind call ret fprintf print_help fst snd app negb].
  rewrite Hfail.
  destruct (Z.leb_spec (strlen (file_path o)) 0); [lia|].
  destruct (glfw_init_ok env), (create_window_ok env), (gl3w_init_ok env);
    repeat split.
Qed.

Lemma unopenable_file_fails_witness :
  let env := sample_env [opt_file "absent.bin"] 2 5 (fun _ => true) in
  snd (main 256 env 10) = Exited EXIT_FAILURE /\
  diagnostic_printed (fst (main 256 env 10)) = true /\
  window_created (fst (main 256 env 10))
    = glfw_init_ok env && create_window_ok env /\
  open_attempted (fst (main 256 env 10))
    = glfw_init_ok env && create_window_ok env && gl3w_init_ok env.
Proof.
  apply (unopenable_file_fails 256
           (sample_env [opt_file "absent.bin"] 2 5 (fun _ => true)) 10
           {| file_path := "absent.bin"; buffer_size := 512 |}
           FileReader.NotFound);
    [reflexivity | reflexivity | reflexivity].
Defined.

(** C3 as stated fails in two ways.  On a healthy platform
    [--file absent.bin] names a file that cannot be opened; the run ends
    with status [1], and by then the window has been created.  And with
    [--file absent.bin --help] the run ends with status [0]. *)
Lemma unopenable_file_claim_fails :
  (let env := sample_env [opt_file "absent.bin"] 2 5 (fun _ => true) in
   FileReader.file_reader_init (file_system env) "absent.bin" 512
     = inl FileReader.NotFound /\
   snd (main 256 env 10) = Exited EXIT_FAILURE /\
   In (EvGlfwCreateWindow 1024 768 "[glraster] - absent.bin" true)
      (fst (main 256 env 10)) /\
   window_created (fst (main 256 env 10)) = true) /\
  (let env := sample_env [opt_file "absent.bin"; opt_help] 2 5
                (fun _ => true) in
   FileReader.file_reader_init (file_system env) "absent.bin" 512
     = inl FileReader.NotFound /\
   snd (main 256 env 10) = Exited 0 /\
   snd (main 256 env 10) <> Exited 1).
Proof.
  cbv zeta. split.
  - split; [reflexivity|]. split; [reflexivity|].
    split; [|reflexivity]. vm_compute. tauto.
  - split; [reflexivity|]. split; [reflexivity|]. discriminate.
Qed.

(** C6.  On a command line without [-s] or [--size], every initialisation
    of the file reader is asked for a capacity of [512]; and a run that
    starts up does initialise the reader, with the scanned file name and
    that capacity. *)
Theorem default_buffer_size_is_512
    (max : nat) (env : environment) (fuel : nat) :
  option_given "s" (getopt_results env) = false ->
  (forall p n ok,
     In (EvFileReaderInit p n ok) (fst (main max env fuel)) -> n = 512) /\
  (forall o r d,
     starts_up max env o r d ->
     In (EvFileReaderInit (file_path o) 512 true) (fst (main max env fuel))).
Proof.
  intros Hs.
  destruct (scan_outcomes max (getopt_results env) initial_options)
    as [(o & Hscan & Hsize) | [Hscan | Hscan]].
  - specialize (Hsize Hs). simpl in Hsize. split.
    + intros p n ok.
      run_cases env fuel Hscan; intros Hin;
        repeat (destruct Hin as [Hin | Hin];
                [ try discriminate Hin;
                  try (injection Hin as _ <- _; exact Hsize) |]);
        try contradiction.
      * apply in_app_or in Hin. destruct Hin as [Hin | Hin].
        -- apply (frame_loop_call _ _ _ _ _ _ _ Hloop) in Hin. discriminate Hin.
        -- repeat (destruct Hin as [Hin | Hin]; [discriminate Hin|]).
           contradiction.
      * apply (frame_loop_call _ _ _ _ _ _ _ Hloop) in Hin. discriminate Hin.
    + intros o' r d Hup. pose proof Hup as (Hscan' & _).
      rewrite Hscan in Hscan'. injection Hscan' as <-.
      rewrite (main_started max env fuel o r d Hup).
      destruct (frame_loop env fuel 0 (first_locals env r d)) as [t [st|out]];
        cbn [fst]; apply in_or_app; left;
        unfold prelude; rewrite Hsize; cbn [In];
        do 14 right; left; reflexivity.
  - split.
    + intros p n ok. unfold main, main_body. rewrite Hscan. simpl.
      intros [Hin | [Hin | []]]; discriminate Hin.
    + intros o r d (Hscan' & _). rewrite Hscan in Hscan'. discriminate.
  - split.
    + intros p n ok. unfold main, main_body. rewrite Hscan. simpl.
      intros [Hin | [Hin | []]]; discriminate Hin.
    + intros o r d (Hscan' & _). rewrite Hscan in Hscan'. discriminate.
Qed.

Lemma default_buffer_size_is_512_witness :
  let env := sample_env [opt_file "data.bin"] 2 5 (fun _ => true) in
  option_given "s" (getopt_results env) = false /\
  (forall p n ok,
     In (EvFileReaderInit p n ok) (fst (main 256 env 10)) -> n = 512) /\
  In (EvFileReaderInit "data.bin" 512 true) (fst (main 256 env 10)).
Proof.
  cbv zeta. split; [reflexivity|].
  destruct (default_buffer_size_is_512 256
              (sample_env [opt_file "data.bin"] 2 5 (fun _ => true)) 10
              eq_refl) as [Hall Hup].
  split; [exact Hall|].
  refine (Hup {| file_path := "data.bin"; buffer_size := 512 |} _ _ _).
  unfold starts_up. repeat split; reflexivity.
Defined.

(** ** Cutting traces at a call *)

Lemma split_nil {A : Type} (l1 : list A) (x : A) (l2 : list A) :
  [] = l1 ++ x :: l2 -> False.
Proof. destruct l1; discriminate. Qed.

Lemma split_cons {A : Type} (a : A) (t l1 : list A) (x : A) (l2 : list A) :
  a :: t = l1 ++ x :: l2 ->
  (l1 = [] /\ a = x /\ t = l2) \/
  (exists l1', l1 = a :: l1' /\ t = l1' ++ x :: l2).
Proof.
  destruct l1 as [|b l1']; simpl; intros H; injection H as -> ->.
  - left. repeat split.
  - right. exists l1'. split; reflexivity.
Qed.

Lemma split_app {A : Type} (u v l1 : list A) (x : A) (l2 : list A) :
  u ++ v = l1 ++ x :: l2 ->
  (exists l2', u = l1 ++ x :: l2' /\ l2 = l2' ++ v) \/
  (exists l1', l1 = u ++ l1' /\ v = l1' ++ x :: l2).
Proof.
  revert l1. induction u as [|a u IH]; intros l1 H; simpl in H.
  - right. exists l1. split; [reflexivity|exact H].
  - apply split_cons in H. destruct H as [(-> & -> & <-) | (l1' & -> & H)].
    + left. exists u. split; reflexivity.
    + destruct (IH l1' H) as [(l2' & -> & ->) | (l1'' & -> & ->)].
      * left. exists l2'. split; reflexivity.
      * right. exists l1''. split; reflexivity.
Qed.

(** Walk down an explicit list looking for the call it is cut at. *)
Ltac walk H :=
  repeat
    match type of H with
    | [] = _ ++ _ :: _ => exfalso; exact (split_nil _ _ _ H)
    | _ :: _ = _ ++ _ :: _ =>
        let Hx := fresh "Hx" in
        let l := fresh "l" in
        apply split_cons in H;
        destruct H as [(-> & Hx & <-) | (l & -> & H)];
        [ try discriminate Hx |]
    end.

(** A frame-only call found in a list whose two ends have none lies in
    the middle. *)
Lemma split_middle (u m v l1 : list event) (x : event) (l2 : list event) :
  forallb (fun e => negb (in_frame e)) u = true ->
  forallb (fun e => negb (in_frame e)) v = true ->
  in_frame x = true ->
  u ++ m ++ v = l1 ++ x :: l2 ->
  exists l1' l2', l1 = u ++ l1' /\ l2 = l2' ++ v /\ m = l1' ++ x :: l2'.
Proof.
  intros Hu Hv Hx H. rewrite forallb_forall in Hu, Hv.
  apply split_app in H. destruct H as [(l2' & Hin & _) | (l1' & -> & H)].
  - specialize (Hu x). rewrite Hin, Hx in Hu.
    discriminate Hu. apply in_elt.
  - apply split_app in H. destruct H as [(l2' & -> & ->) | (l1'' & _ & Hin)].
    + exists l1', l2'. repeat split.
    + specialize (Hv x). rewrite Hin, Hx in Hv.
      discriminate Hv. apply in_elt.
Qed.

(** Every run is a frame loop between two stretches free of frame calls;
    the loop is missing when the start-up fails. *)
Lemma main_trace_form (max : nat) (env : environment) (fuel : nat) :
  exists u m v,
    fst (main max env fuel) = u ++ m ++ v /\
    forallb (fun e => negb (in_frame e)) u = true /\
    forallb (fun e => negb (in_frame e)) v = true /\
    (m = [] \/ exists st, m = fst (frame_loop env fuel 0 st)).
Proof.
  destruct (scan_outcomes max (getopt_results env) initial_options)
    as [(o & Hscan & _) | [Hscan | Hscan]].
  - run_cases env fuel Hscan;
      try (eexists; exists [], []; rewrite !app_nil_r;
           split; [reflexivity|]; split; [reflexivity|];
           split; [reflexivity|]; left; reflexivity).
    + exists (prelude env o r), t, coda. split; [reflexivity|].
      split; [reflexivity|]. split; [reflexivity|].
      right. eexists. rewrite Hloop. reflexivity.
    + exists (prelude env o r), t, []. rewrite app_nil_r.
      split; [reflexivity|].
      split; [reflexivity|]. split; [reflexivity|].
      right. eexists. rewrite Hloop. reflexivity.
  - unfold main, main_body. rewrite Hscan.
    exists [EvSignal; usage_call], [], []. repeat split; left; reflexivity.
  - unfold main, main_body. rewrite Hscan.
    exists [EvSignal; EvAbort], [], []. repeat split; left; reflexivity.
Qed.

(** A frame call of a run lies in its frame loop. *)
Lemma main_trace_split (max : nat) (env : environment) (fuel : nat)
    (l1 : list event) (x : event) (l2 : list event) :
  in_frame x = true ->
  fst (main max env fuel) = l1 ++ x :: l2 ->
  exists st u l1' l2' v,
    l1 = u ++ l1' /\ l2 = l2' ++ v /\
    fst (frame_loop env fuel 0 st) = l1' ++ x :: l2'.
Proof.
  intros Hx H.
  destruct (main_trace_form max env fuel) as (u & m & v & Hform & Hu & Hv & Hm).
  rewrite Hform in H.
  destruct (split_middle u m v l1 x l2 Hu Hv Hx H) as (l1' & l2' & -> & -> & Hmid).
  destruct Hm as [-> | (st & ->)].
  - exfalso. exact (split_nil _ _ _ Hmid).
  - exists st, u, l1', l2', v. repeat split. exact Hmid.
Qed.

(** ** Order of the calls of a frame *)

Ltac open_frame H :=
  cbn [fst] in H;
  unfold frame_calls, frame, raster_display_draw_dialog, file_reader_tick,
    glfwGetWindowSize in H;
  cbn [bind call ret fst snd app] in H.





(** ** The viewport of a frame *)



(** ** Failing reads *)

(** How the loop ends does not depend on the reader it works on, nor on
    the fate of the reads. *)
Lemma frame_loop_end_any_reads (env : environment) (reads : nat -> bool)
    (fuel k : nat) (st st' : locals) :
  match snd (frame_loop (with_read_ok env reads) fuel k st),
        snd (frame_loop env fuel k st') with
  | Continue _, Continue _ => True
  | Halt a, Halt b => a = b
  | _, _ => False
  end.
Proof.
  revert k st st'. induction fuel as [|fuel IH]; intros k st st'.
  - reflexivity.
  - rewrite !frame_loop_step.
    change (window_should_close (with_read_ok env reads) k)
      with (window_should_close env k).
    change (interrupt_flag (with_read_ok env reads) k)
      with (interrupt_flag env k).
    destruct (window_should_close env k); [exact I|].
    destruct (interrupt_flag env k); [exact I|].
    cbn [snd]. apply IH.
Qed.

Lemma main_end_any_reads (max : nat) (env : environment)
    (reads : nat -> bool) (fuel : nat) :
  snd (main max (with_read_ok env reads) fuel) = snd (main max env fuel).
Proof.
  destruct (scan_outcomes max (getopt_results env) initial_options)
    as [(o & Hscan & _) | [Hscan | Hscan]].
  - unfold main at 1, main_body, glfwInit, glfwCreateWindow,
      glfwGetWindowSize, gl3wInit, file_reader_init, raster_display_init.
    cbn [getopt_results glfw_init_ok create_window_ok startup_window_size
         gl3w_init_ok file_system with_read_ok].
    rewrite Hscan. run_step.
    run_cases env fuel Hscan; try reflexivity.
    + run_step.
      pose proof (frame_loop_end_any_reads env reads fuel 0
                    {| window_w := fst (startup_window_size env);
                       window_h := snd (startup_window_size env);
                       display := d; reader := r |}
                    {| window_w := fst (startup_window_size env);
                       window_h := snd (startup_window_size env);
                       display := d; reader := r |}) as Hend.
      rewrite Hloop in Hend.
      destruct (frame_loop (with_read_ok env reads) fuel 0 _) as [t' [st'|out']];
        cbn [snd] in Hend; [reflexivity | contradiction].
    + run_step.
      pose proof (frame_loop_end_any_reads env reads fuel 0
                    {| window_w := fst (startup_window_size env);
                       window_h := snd (startup_window_size env);
                       display := d; reader := r |}
                    {| window_w := fst (startup_window_size env);
                       window_h := snd (startup_window_size env);
                       display := d; reader := r |}) as Hend.
      rewrite Hloop in Hend.
      destruct (frame_loop (with_read_ok env reads) fuel 0 _) as [t' [st'|out']];
        cbn [snd] in Hend; [contradiction | now subst].
  - unfold main, main_body. cbn [getopt_results with_read_ok].
    rewrite Hscan. reflexivity.
  - unfold main, main_body. cbn [getopt_results with_read_ok].
    rewrite Hscan. reflexivity.
Qed.

(** C7.  Frame [k] is entered with the locals [st] and its tick fails.
    The frame still makes its calls: the tick is followed at once by
    [raster_display_draw] on the buffer the reader had before the tick.
    The reader is left as it was.  Unless the interrupt flag is set, the
    loop goes on into frame [k + 1].  And the way a run ends is the same
    whatever reads fail. *)
Theorem tick_failure_is_not_fatal
    (max : nat) (env : environment) (fuel k : nat) (st : locals) :
  window_should_close env k = false ->
  snd (FileReader.file_reader_tick (reader st) (dialog_offset env k)
         (read_ok env k)) = Some FileReader.ReadFailed ->
  (exists pre d post,
     frame_calls env k st =
       pre ++ EvFileReaderTick (dialog_offset env k) (reader st)
                (Some FileReader.ReadFailed)
           :: EvDisplayDraw d (FileReader.buffer (reader st))
           :: post /\
     In (EvDisplayRender d) post) /\
  reader (after_frame env k st) = reader st /\
  (interrupt_flag env k = false ->
   exists pre,
     frame_loop env (S fuel) k st =
       (pre ++ fst (frame_loop env fuel (S k) (after_frame env k st)),
        snd (frame_loop env fuel (S k) (after_frame env k st)))) /\
  (forall reads,
     snd (main max (with_read_ok env reads) fuel) = snd (main max env fuel)).
Proof.
  intros Hopen Hfail.
  assert (Hreader : fst (FileReader.file_reader_tick (reader st)
                           (dialog_offset env k) (read_ok env k)) = reader st).
  { revert Hfail. unfold FileReader.file_reader_tick.
    destruct (_ =? _); [discriminate|].
    destruct (read_ok env k); [discriminate|reflexivity]. }
  split; [|split; [|split]].
  - eexists [_; _; _], _, _. unfold frame_calls, frame,
      raster_display_draw_dialog, file_reader_tick, glfwGetWindowSize.
    cbn [bind call ret fst snd app Display.file_offset Display.set_file_offset].
    rewrite Hreader, Hfail. split; [reflexivity|]. cbn. tauto.
  - unfold after_frame. cbn [reader Display.file_offset Display.set_file_offset].
    exact Hreader.
  - intros Hflag. rewrite frame_loop_step, Hopen, Hflag.
    exists (EvGlfwWindowShouldClose false
              :: frame_calls env k st ++ [EvInterruptFlag false]).
    cbn [app]. now rewrite <- app_assoc.
  - intros reads. apply main_end_any_reads.
Qed.

Lemma tick_failure_is_not_fatal_witness :
  let env := sample_env [opt_file "data.bin"; opt_size "4"] 5 9
               (fun k => negb (Nat.eqb k 1)) in
  (exists pre d post,
     frame_calls env 1 sample_locals =
       pre ++ EvFileReaderTick 3 sample_reader (Some FileReader.ReadFailed)
           :: EvDisplayDraw d [x00; x01; x02; x03]
           :: post /\
     In (EvDisplayRender d) post) /\
  reader (after_frame env 1 sample_locals) = sample_reader /\
  (interrupt_flag env 1 = false ->
   exists pre,
     frame_loop env 11 1 sample_locals =
       (pre ++ fst (frame_loop env 10 2 (after_frame env 1 sample_locals)),
        snd (frame_loop env 10 2 (after_frame env 1 sample_locals)))) /\
  (forall reads,
     snd (main 256 (with_read_ok env reads) 10) = snd (main 256 env 10)).
Proof.
  apply (tick_failure_is_not_fatal 256
           (sample_env [opt_file "data.bin"; opt_size "4"] 5 9
              (fun k => negb (Nat.eqb k 1)))
           10 1 sample_locals);
    reflexivity.
Defined.

(** ** The interrupt flag *)

Lemma count_app (p : event -> bool) (t1 t2 : list event) :
  count p (t1 ++ t2) = (count p t1 + count p t2)%nat.
Proof. unfold count. now rewrite filter_app, length_app. Qed.

(** The flag is read right after the last rendering call of a frame. *)
Lemma frame_loop_poll_after_render (env : environment) (fuel k : nat)
    (st : locals) (l1 : list event) (b : bool) (l2 : list event) :
  fst (frame_loop env fuel k st) = l1 ++ EvInterruptFlag b :: l2 ->
  exists l0 d,
    l1 = l0 ++ [EvDisplayRender d;
                EvNkRender MAX_VERTEX_BUFFER MAX_ELEMENT_BUFFER;
                EvGlfwSwapBuffers].
Proof.
  revert k st l1 l2. induction fuel as [|fuel IH]; intros k st l1 l2 H.
  - exfalso. exact (split_nil _ _ _ H).
  - rewrite frame_loop_step in H.
    destruct (window_should_close env k); [cbn in H; walk H|].
    destruct (interrupt_flag env k); open_frame H; walk H;
      try (eexists [_; _; _; _; _; _; _]; repeat eexists; fail).
    destruct (IH _ _ _ _ H) as (l0 & d & ->).
    rewrite !app_comm_cons. repeat eexists.
Qed.

(** Every frame ends with a read of the flag. *)
Lemma frame_loop_swap_then_poll (env : environment) (fuel k : nat)
    (st : locals) (l1 l2 : list event) :
  fst (frame_loop env fuel k st) = l1 ++ EvGlfwSwapBuffers :: l2 ->
  exists b l3, l2 = EvInterruptFlag b :: l3.
Proof.
  revert k st l1 l2. induction fuel as [|fuel IH]; intros k st l1 l2 H.
  - exfalso. exact (split_nil _ _ _ H).
  - rewrite frame_loop_step in H.
    destruct (window_should_close env k); [cbn in H; walk H|].
    destruct (interrupt_flag env k); open_frame H; walk H;
      try (repeat eexists; fail).
    exact (IH _ _ _ _ H).
Qed.

(** The loop runs until the first frame that finds the flag set, finishes
    that frame, and leaves. *)
Lemma frame_loop_until_flag (env : environment) (n : nat) :
  forall (fuel k0 : nat) (st : locals),
    (n < fuel)%nat ->
    (forall j, (k0 <= j <= k0 + n)%nat -> window_should_close env j = false) ->
    (forall j, (k0 <= j < k0 + n)%nat -> interrupt_flag env j = false) ->
    interrupt_flag env (k0 + n) = true ->
    exists t st' pre,
      frame_loop env fuel k0 st = (t, Continue st') /\
      count is_frame_start t = S n /\
      count is_flag_poll t = S n /\
      count is_reader_free t = 0%nat /\
      t = pre ++ [EvGlfwSwapBuffers; EvInterruptFlag true;
                  EvFprintf stdout ("[INFO] - CTRL-C detected..." ++ nl) []].
Proof.
  induction n as [|n IH]; intros fuel k0 st Hfuel Hopen Hclear Hset;
    (destruct fuel as [|fuel]; [lia|]); rewrite frame_loop_step;
    rewrite (Hopen k0) by lia.
  - rewrite Nat.add_0_r in Hset. rewrite Hset.
    eexists _, _, [_; _; _; _; _; _; _; _; _].
    split; [reflexivity|]. repeat split.
  - rewrite (Hclear k0) by lia.
    destruct (IH fuel (S k0) (after_frame env k0 st)) as
      (t & st' & pre & Hloop & Hstart & Hpoll & Hfree & Ht).
    + lia.
    + intros j Hj. apply Hopen. lia.
    + intros j Hj. apply Hclear. lia.
    + now rewrite Nat.add_succ_comm.
    + rewrite Hloop. cbn [fst snd].
      eexists _, st', (_ :: frame_calls env k0 st ++ _ :: pre).
      split; [reflexivity|].
      change (EvGlfwWindowShouldClose false :: ?a ++ ?b :: ?c)
        with ([EvGlfwWindowShouldClose false] ++ a ++ [b] ++ c).
      rewrite !count_app, Hstart, Hpoll, Hfree.
      repeat split.
      rewrite Ht. cbn [app]. rewrite <- app_assoc. reflexivity.
Qed.

(** C8.  A run starts up, and frame [k] is the first to find the interrupt
    flag set, no close request coming before.  Then the run ends with
    status [0]; [k + 1] frames are begun and the flag is read [k + 1]
    times; each read comes right after the last rendering call of a frame
    and every frame ends with such a read; the run finishes frame [k],
    reports the interrupt and shuts down; the file reader is released
    exactly once. *)
Theorem interrupt_ends_run
    (max : nat) (env : environment) (fuel : nat) (o : options)
    (r : FileReader.file_reader) (d : Display.raster_display) (k : nat) :
  starts_up max env o r d ->
  (forall j, (j <= k)%nat -> window_should_close env j = false) ->
  (forall j, (j < k)%nat -> interrupt_flag env j = false) ->
  interrupt_flag env k = true ->
  (k < fuel)%nat ->
  snd (main max env fuel) = Exited EXIT_SUCCESS /\
  count is_reader_free (fst (main max env fuel)) = 1%nat /\
  count is_frame_start (fst (main max env fuel)) = S k /\
  count is_flag_poll (fst (main max env fuel)) = S k /\
  (forall l1 b l2,
     fst (main max env fuel) = l1 ++ EvInterruptFlag b :: l2 ->
     exists l0 d',
       l1 = l0 ++ [EvDisplayRender d';
                   EvNkRender MAX_VERTEX_BUFFER MAX_ELEMENT_BUFFER;
                   EvGlfwSwapBuffers]) /\
  (forall l1 l2,
     fst (main max env fuel) = l1 ++ EvGlfwSwapBuffers :: l2 ->
     exists b l3, l2 = EvInterruptFlag b :: l3) /\
  (exists pre,
     fst (main max env fuel) =
       pre ++ [EvGlfwSwapBuffers; EvInterruptFlag true;
               EvFprintf stdout ("[INFO] - CTRL-C detected..." ++ nl) []]
           ++ coda).
Proof.
  intros Hup Hopen Hclear Hset Hfuel.
  destruct (frame_loop_until_flag env k fuel 0 (first_locals env r d))
    as (t & st' & pre & Hloop & Hstart & Hpoll & Hfree & Ht);
    [exact Hfuel | intros j Hj; apply Hopen; lia
     | intros j Hj; apply Hclear; lia | exact Hset |].
  split; [|split; [|split; [|split; [|split; [|split]]]]].
  - rewrite (main_started max env fuel o r d Hup), Hloop. reflexivity.
  - rewrite (main_started max env fuel o r d Hup), Hloop. cbn [fst].
    rewrite !count_app, Hfree. reflexivity.
  - rewrite (main_started max env fuel o r d Hup), Hloop. cbn [fst].
    rewrite !count_app, Hstart. cbn. lia.
  - rewrite (main_started max env fuel o r d Hup), Hloop. cbn [fst].
    rewrite !count_app, Hpoll. cbn. lia.
  - intros l1 b l2 H.
    destruct (main_trace_split max env fuel l1 (EvInterruptFlag b) l2
                eq_refl H)
      as (st & u & l1' & l2' & v & -> & -> & Hcut).
    destruct (frame_loop_poll_after_render env fuel 0 st l1' b l2' Hcut)
      as (l0 & d' & ->).
    exists (u ++ l0), d'. now rewrite app_assoc.
  - intros l1 l2 H.
    destruct (main_trace_split max env fuel l1 EvGlfwSwapBuffers l2
                eq_refl H)
      as (st & u & l1' & l2' & v & -> & -> & Hcut).
    destruct (frame_loop_swap_then_poll env fuel 0 st l1' l2' Hcut)
      as (b & l3 & ->).
    exists b, (l3 ++ v). reflexivity.
  - exists (prelude env o r ++ pre).
    rewrite (main_started max env fuel o r d Hup), Hloop. cbn [fst].
    rewrite Ht, <- !app_assoc. reflexivity.
Qed.

Lemma interrupt_ends_run_witness :
  let env := sample_env [opt_file "data.bin"; opt_size "4"] 9 2
               (fun _ => true) in
  snd (main 256 env 10) = Exited EXIT_SUCCESS /\
  count is_reader_free (fst (main 256 env 10)) = 1%nat /\
  count is_frame_start (fst (main 256 env 10)) = 3%nat /\
  count is_flag_poll (fst (main 256 env 10)) = 3%nat /\
  (forall l1 b l2,
     fst (main 256 env 10) = l1 ++ EvInterruptFlag b :: l2 ->
     exists l0 d',
       l1 = l0 ++ [EvDisplayRender d';
                   EvNkRender MAX_VERTEX_BUFFER MAX_ELEMENT_BUFFER;
                   EvGlfwSwapBuffers]) /\
  (forall l1 l2,
     fst (main 256 env 10) = l1 ++ EvGlfwSwapBuffers :: l2 ->
     exists b l3, l2 = EvInterruptFlag b :: l3) /\
  (exists pre,
     fst (main 256 env 10) =
       pre ++ [EvGlfwSwapBuffers; EvInterruptFlag true;
               EvFprintf stdout ("[INFO] - CTRL-C detected..." ++ nl) []]
           ++ coda).
Proof.
  apply (interrupt_ends_run 256
           (sample_env [opt_file "data.bin"; opt_size "4"] 9 2 (fun _ => true))
           10 {| file_path := "data.bin"; buffer_size := 4 |}
           sample_reader sample_display 2).
  - unfold starts_up. repeat split; reflexivity.
  - intros j Hj. destruct j as [|[|[|j]]]; [reflexivity.. | lia].
  - intros j Hj. destruct j as [|[|j]]; [reflexivity.. | lia].
  - reflexivity.
  - lia.
Defined.

(** ** A sample run *)

(** Two frames on [data.bin], then a close request: the viewport entries
    and the end of the run. *)
Example sample_run_viewport :
  let env := sample_env [opt_file "data.bin"; opt_size "4"] 2 5
               (fun _ => true) in
  viewport_log (fst (main 256 env 10)) =
    [Queried (1024, 768); Drawn (1024, 768); Queried (800, 600);
     Drawn (800, 600); Queried (801, 600)] /\
  snd (main 256 env 10) = Exited EXIT_SUCCESS /\
  count is_frame_start (fst (main 256 env 10)) = 2%nat.
Proof. cbv zeta. repeat split. Qed.

(** A run observed for fewer frames than it lasts is still in its loop. *)
Example sample_run_observed_briefly :
  snd (main 256 (sample_env [opt_file "data.bin"] 9 9 (fun _ => true)) 3)
    = Running.
Proof. reflexivity. Qed.

(** [--size] goes through [strtol]. *)
Example sample_run_size_option :
  In (EvFileReaderInit "data.bin" 4 true)
     (fst (main 256 (sample_env [opt_file "data.bin"; opt_size " +4k"] 0 0
                       (fun _ => true)) 1)).
Proof. vm_compute. tauto. Qed.

(** * Further properties of [main.c] *)

(** ** The option scan, continued *)

Lemma find_last {A : Type} (p : A -> bool) (l : list A) (a : A) :
  find p (l ++ [a]) =
    match find p l with
    | Some x => Some x
    | None => if p a then Some a else None
    end.
Proof.
  induction l as [|b l IH]; simpl.
  - reflexivity.
  - destruct (p b); [reflexivity|exact IH].
Qed.

Lemma last_optarg_cons (c : ascii) (r : getopt_result)
    (rest : list getopt_result) :
  last_optarg c (r :: rest) =
    match last_optarg c rest with
    | Some a => Some a
    | None => if opt r =? code c then Some (optarg r) else None
    end.
Proof.
  unfold last_optarg. simpl rev. rewrite find_last.
  destruct (find _ (rev rest)); [reflexivity|].
  destruct (opt r =? code c); reflexivity.
Qed.

(** The scan of [-f] and [-s] options on the locals of the model. *)
Lemma scan_settings
    (max : nat) (results : list getopt_result) (o : options) :
  settings_only results = true ->
  scan_options max results o =
    ([], Continue
           {| file_path :=
                match last_optarg "f" results with
                | Some p => strncpy p max
                | None => file_path o
                end;
              buffer_size :=
                match last_optarg "s" results with
                | Some n => strtol n
                | None => buffer_size o
                end |}).
Proof.
  unfold settings_only. revert o.
  induction results as [|r rest IH]; intros o Hok.
  - destruct o. reflexivity.
  - simpl in Hok. rewrite !last_optarg_cons. simpl. codes.
    destruct (Z.eqb_spec (opt r) (-1)); [exfalso|].
    { destruct (Z.eqb_spec (opt r) 102); [lia|].
      destruct (Z.eqb_spec (opt r) 115); [lia|discriminate]. }
    destruct (Z.eqb_spec (opt r) 102).
    + destruct (Z.eqb_spec (opt r) 115); [lia|].
      rewrite IH by exact Hok. cbn [file_path buffer_size].
      destruct (last_optarg "f" rest), (last_optarg "s" rest); reflexivity.
    + destruct (Z.eqb_spec (opt r) 115); [|discriminate].
      rewrite IH by exact Hok. cbn [file_path buffer_size].
      destruct (last_optarg "f" rest), (last_optarg "s" rest); reflexivity.
Qed.

(** A source that fits the array with its terminator is copied whole. *)
Lemma strncpy_fits (src : string) (n : nat) :
  (String.length src < n)%nat -> strncpy src n = src.
Proof.
  unfold strncpy. revert src. induction n as [|n IH]; intros [|c src];
    simpl; intros Hlen; try reflexivity; try lia.
  rewrite IH by lia. reflexivity.
Qed.

(** X1.  On a command line of [-f] and [-s] options only, whose last
    [-f] argument is shorter than [MAX_FILE_LEN], the scan ends in
    silence; the file name is that argument, whole, whatever earlier [-f]
    options said; the buffer size is [strtol] of the argument of the last
    [-s], unchecked; an option that does not occur leaves its local as it
    was. *)
Theorem scan_last_option_wins
    (max : nat) (results : list getopt_result) (o : options) :
  settings_only results = true ->
  (forall p, last_optarg "f" results = Some p ->
             (String.length p < max)%nat) ->
  scan_options max results o =
    ([], Continue
           {| file_path :=
                match last_optarg "f" results with
                | Some p => p
                | None => file_path o
                end;
              buffer_size :=
                match last_optarg "s" results with
                | Some n => strtol n
                | None => buffer_size o
                end |}).
Proof.
  intros Hok Hfits. rewrite (scan_settings max results o Hok).
  destruct (last_optarg "f" results) as [p|]; [|reflexivity].
  rewrite (strncpy_fits p max (Hfits p eq_refl)). reflexivity.
Qed.

Lemma scan_last_option_wins_witness :
  scan_options 16
    [opt_size "64"; opt_file "a-much-longer-name.bin"; opt_size "-3 bytes";
     opt_file "data.bin"]
    initial_options =
  ([], Continue {| file_path := "data.bin"; buffer_size := -3 |}).
Proof.
  apply (scan_last_option_wins 16
           [opt_size "64"; opt_file "a-much-longer-name.bin";
            opt_size "-3 bytes"; opt_file "data.bin"] initial_options).
  - reflexivity.
  - intros p Hp. injection Hp as <-. simpl. lia.
Defined.

(** X2.  Nothing after the first [-h] or unrecognised option is looked
    at: when only [-f] and [-s] come before it, the run is the one of
    [--help] whatever [getopt_long] would have returned next. *)
Theorem options_after_help_are_ignored
    (max : nat) (env : environment) (fuel : nat)
    (before : list getopt_result) (r : getopt_result)
    (after : list getopt_result) :
  getopt_results env = before ++ r :: after ->
  settings_only before = true ->
  opt r = code "h" \/ opt r = code "?" ->
  main max env fuel = ([EvSignal; usage_call], Exited EXIT_SUCCESS).
Proof.
  intros Hcmd Hbefore Hr. apply main_help. rewrite Hcmd. clear Hcmd.
  generalize initial_options as o. unfold settings_only in Hbefore.
  induction before as [|b before IH]; intros o; simpl in *; codes.
  - destruct Hr as [Hr | Hr]; rewrite Hr; reflexivity.
  - destruct (Z.eqb_spec (opt b) (-1)), (Z.eqb_spec (opt b) 102),
      (Z.eqb_spec (opt b) 115);
      try lia; simpl in Hbefore; try discriminate; now apply IH.
Qed.

Lemma options_after_help_are_ignored_witness :
  main 256
    (sample_env [opt_size "8"; opt_unknown; {| opt := 7; optarg := "" |};
                 opt_file "data.bin"] 2 5 (fun _ => true))
    10 = ([EvSignal; usage_call], Exited EXIT_SUCCESS).
Proof.
  apply (options_after_help_are_ignored 256
           (sample_env [opt_size "8"; opt_unknown;
                        {| opt := 7; optarg := "" |};
                        opt_file "data.bin"] 2 5 (fun _ => true))
           10 [opt_size "8"] opt_unknown
           [{| opt := 7; optarg := "" |}; opt_file "data.bin"]).
  - reflexivity.
  - reflexivity.
  - right. reflexivity.
Defined.

(** ** What the frame loop cannot do *)

Lemma frame_loop_lacks (env : environment) (fuel k : nat) (st : locals)
    (t : list event) (s : step locals) (p : event -> bool) :
  (forall e, loop_call e = true -> p e = false) ->
  frame_loop env fuel k st = (t, s) ->
  existsb p t = false /\ count p t = 0%nat.
Proof.
  intros Hp Hloop. pose proof (frame_loop_calls env fuel k st) as Hall.
  rewrite Hloop in Hall. cbn [fst] in Hall. clear Hloop. unfold count.
  induction t as [|e t IH]; [split; reflexivity|].
  simpl in Hall. apply andb_true_iff in Hall. destruct Hall as [He Ht].
  simpl. rewrite (Hp e He). exact (IH Ht).
Qed.

Lemma frame_loop_halts_running (env : environment) (fuel k : nat)
    (st : locals) (out : outcome) :
  snd (frame_loop env fuel k st) = Halt out -> out = Running.
Proof.
  revert k st. induction fuel as [|fuel IH]; intros k st.
  - cbn. now intros [= <-].
  - rewrite frame_loop_step.
    destruct (window_should_close env k); [discriminate|].
    destruct (interrupt_flag env k); [discriminate|]. apply IH.
Qed.

(** Calls of a kind [p] that the loop never makes. *)
Ltac not_a_loop_call :=
  let He := fresh "He" in
  intros [] He; cbn in He; try discriminate He; try reflexivity;
  match goal with
  | out : stream |- _ => destruct out; (discriminate He || reflexivity)
  end.

Ltac loop_lacks Hloop p :=
  let Hex := fresh "Hex" in
  let Hcount := fresh "Hcount" in
  destruct (frame_loop_lacks _ _ _ _ _ _ p ltac:(not_a_loop_call) Hloop)
    as [Hex Hcount].

(** Every way a run of [main] can go: the scan ends it ([Hscan] tells
    how), or one of the start-up steps fails, or the loop is entered
    ([Hloop]). *)
Ltac all_runs max env fuel :=
  let o := fresh "o" in
  destruct (scan_outcomes max (getopt_results env) initial_options)
    as [(o & Hscan & _) | [Hscan | Hscan]];
  [ run_cases env fuel Hscan
  | unfold main, main_body; rewrite Hscan; run_step
  | unfold main, main_body; rewrite Hscan; run_step ].

Ltac loop_running env fuel Hloop :=
  match type of Hloop with
  | frame_loop _ _ _ ?st = (_, Halt ?out) =>
      let Hout := fresh "Hout" in
      pose proof (frame_loop_halts_running env fuel 0 st out) as Hout;
      rewrite Hloop in Hout; specialize (Hout eq_refl);
      rewrite Hout in *; clear Hout
  end.

(** ** Failures *)

(** X3.  Among the calls of [main] itself, those of
    [fprintf (stderr, ...)] go with its failing returns: a run in which
    [main] returns [1] holds exactly one, and no other run holds any.
    (What [getopt_long] and [glfw_error_callback] write on [stderr] is not
    a call of [main]; the statement does not cover it.) *)
Theorem main_reports_each_failure
    (max : nat) (env : environment) (fuel : nat) :
  (snd (main max env fuel) = Exited EXIT_FAILURE ->
   count is_diagnostic (fst (main max env fuel)) = 1%nat) /\
  (snd (main max env fuel) <> Exited EXIT_FAILURE ->
   count is_diagnostic (fst (main max env fuel)) = 0%nat).
Proof.
  unfold count.
  all_runs max env fuel;
    cbn [filter is_diagnostic List.length fst snd app];
    (split; intros Hend);
    try discriminate Hend; try (exfalso; apply Hend; reflexivity);
    try reflexivity.
  - loop_lacks Hloop is_diagnostic. unfold count in Hcount.
    rewrite filter_app, length_app, Hcount. reflexivity.
  - loop_running env fuel Hloop. discriminate Hend.
  - loop_lacks Hloop is_diagnostic. exact Hcount.
Qed.

Lemma main_reports_each_failure_witness :
  let env := sample_env [opt_file "absent.bin"] 2 5 (fun _ => true) in
  snd (main 256 env 10) = Exited EXIT_FAILURE /\
  count is_diagnostic (fst (main 256 env 10)) = 1%nat.
Proof.
  cbv zeta. split; [reflexivity|].
  exact (proj1 (main_reports_each_failure 256
                  (sample_env [opt_file "absent.bin"] 2 5 (fun _ => true))
                  10) eq_refl).
Defined.

(** Where a call of kind [p] sits in a run, a call of kind [q] came
    before it. *)
Ltac comes_after :=
  let l1 := fresh "l1" in
  let e := fresh "e" in
  let l2 := fresh "l2" in
  let H := fresh "H" in
  let He := fresh "He" in
  intros l1 e l2 H He; walk H;
  try (subst e; cbn in He; discriminate He);
  cbn; reflexivity.

(** X4.  The start-up goes step by step, each step only after the one
    before it has succeeded: a window is asked for only after GLFW came
    up, the GL loader is started only after the window was created, the
    file reader is initialised only after the loader came up, the display
    only after the reader, and a frame begins only after the display was
    initialised. *)
Theorem startup_steps_in_order (max : nat) (env : environment) (fuel : nat) :
  (forall l1 e l2,
     fst (main max env fuel) = l1 ++ e :: l2 ->
     is_window_attempt e = true -> existsb is_glfw_up l1 = true) /\
  (forall l1 e l2,
     fst (main max env fuel) = l1 ++ e :: l2 ->
     is_gl3w_attempt e = true -> window_created l1 = true) /\
  (forall l1 e l2,
     fst (main max env fuel) = l1 ++ e :: l2 ->
     is_open_attempt e = true -> existsb is_gl3w_up l1 = true) /\
  (forall l1 e l2,
     fst (main max env fuel) = l1 ++ e :: l2 ->
     is_display_attempt e = true -> existsb is_open_ok l1 = true) /\
  (forall l1 e l2,
     fst (main max env fuel) = l1 ++ e :: l2 ->
     is_frame_start e = true -> existsb is_display_ok l1 = true).
Proof.
  unfold window_created.
  all_runs max env fuel; cbn [fst];
    (split; [|split; [|split; [|split]]]); comes_after.
Qed.

(** X5.  A run that ends with status [1] gives nothing back: it calls
    none of [raster_display_free], [nk_glfw3_shutdown], [glfwTerminate]
    and [file_reader_free], also when the window or the reader had been
    created by then. *)
Theorem failing_run_releases_nothing
    (max : nat) (env : environment) (fuel : nat) :
  snd (main max env fuel) = Exited EXIT_FAILURE ->
  existsb is_release (fst (main max env fuel)) = false.
Proof.
  all_runs max env fuel; cbn [fst snd]; intros Hend;
    try reflexivity; try discriminate Hend.
  loop_running env fuel Hloop. discriminate Hend.
Qed.

Lemma failing_run_releases_nothing_witness :
  let env := {| getopt_results := [opt_file "data.bin"];
                glfw_init_ok := true;
                create_window_ok := true;
                startup_window_size := (0, 0);
                gl3w_init_ok := true;
                file_system := sample_fs;
                window_should_close := fun _ => false;
                dialog_offset := fun _ => 0;
                read_ok := fun _ => true;
                frame_window_size := fun _ => (0, 0);
                interrupt_flag := fun _ => false |} in
  window_created (fst (main 256 env 10)) = true /\
  existsb is_open_ok (fst (main 256 env 10)) = true /\
  snd (main 256 env 10) = Exited EXIT_FAILURE /\
  existsb is_release (fst (main 256 env 10)) = false.
Proof.
  cbv zeta. split; [reflexivity|]. split; [reflexivity|].
  split; [reflexivity|].
  apply failing_run_releases_nothing. reflexivity.
Defined.

(** X6.  No run asks for more than one window or initialises the file
    reader more than once, and [file_reader_free] is called at most as
    often as [file_reader_init] succeeded. *)
Theorem resources_are_taken_once
    (max : nat) (env : environment) (fuel : nat) :
  (count is_window_attempt (fst (main max env fuel)) <= 1)%nat /\
  (count is_open_attempt (fst (main max env fuel)) <= 1)%nat /\
  (count is_reader_free (fst (main max env fuel))
     <= count is_open_ok (fst (main max env fuel)))%nat.
Proof.
  unfold count.
  all_runs max env fuel;
    cbn [fst filter is_window_attempt is_open_attempt is_reader_free
         is_open_ok List.length];
    try (repeat split; lia).
  - loop_lacks Hloop is_window_attempt. loop_lacks Hloop is_open_attempt.
    loop_lacks Hloop is_reader_free. loop_lacks Hloop is_open_ok.
    unfold count in *. rewrite !filter_app, !length_app.
    cbn [filter is_window_attempt is_open_attempt is_reader_free
         is_open_ok List.length].
    repeat split; lia.
  - loop_lacks Hloop is_window_attempt. loop_lacks Hloop is_open_attempt.
    loop_lacks Hloop is_reader_free. loop_lacks Hloop is_open_ok.
    unfold count in *. repeat split; lia.
  - cbn. repeat split; lia.
Qed.

(** X7.  As long as [getopt_long] returns only the option characters of
    the table of [main], no run reaches [abort ()]. *)
Theorem abort_is_never_reached
    (max : nat) (env : environment) (fuel : nat) :
  getopt_codes_ok (getopt_results env) = true ->
  snd (main max env fuel) <> Aborted /\
  existsb is_abort (fst (main max env fuel)) = false.
Proof.
  intros Hok.
  destruct (option_given "h" (getopt_results env)
            || option_given "?" (getopt_results env)) eqn:Hany.
  - rewrite (main_help max env fuel
               (scan_help_path max _ initial_options Hok Hany)).
    split; [discriminate|reflexivity].
  - apply orb_false_iff in Hany. destruct Hany as [Hh Hu].
    destruct (scan_quiet_path max _ initial_options Hok Hh Hu)
      as (o & Hscan & _).
    run_cases env fuel Hscan; cbn [fst snd existsb is_abort orb];
      try (split; [discriminate|reflexivity]).
    + loop_lacks Hloop is_abort. rewrite existsb_app, Hex.
      split; [discriminate|reflexivity].
    + loop_lacks Hloop is_abort. loop_running env fuel Hloop.
      split; [discriminate|exact Hex].
Qed.

Lemma abort_is_never_reached_witness :
  let env := sample_env [opt_size "2"; opt_file "data.bin"] 2 5
               (fun _ => true) in
  snd (main 256 env 10) <> Aborted /\
  existsb is_abort (fst (main 256 env 10)) = false.
Proof.
  apply (abort_is_never_reached 256
           (sample_env [opt_size "2"; opt_file "data.bin"] 2 5
              (fun _ => true)) 10).
  reflexivity.
Defined.

(** A return of [getopt_long] outside the table does reach [abort ()]. *)
Example abort_on_a_foreign_option :
  main 256 (sample_env [{| opt := 7; optarg := "" |}] 2 5 (fun _ => true)) 10
    = ([EvSignal; EvAbort], Aborted).
Proof. reflexivity. Qed.

(** ** Leaving the frame loop *)

(** The loop runs until the first close request and leaves before that
    frame begins. *)
Lemma frame_loop_until_close (env : environment) (n : nat) :
  forall (fuel k0 : nat) (st : locals),
    (n < fuel)%nat ->
    (forall j, (k0 <= j < k0 + n)%nat -> window_should_close env j = false) ->
    (forall j, (k0 <= j < k0 + n)%nat -> interrupt_flag env j = false) ->
    window_should_close env (k0 + n) = true ->
    exists t st' pre,
      frame_loop env fuel k0 st = (t, Continue st') /\
      count is_frame_start t = n /\
      count is_flag_poll t = n /\
      existsb is_interrupt_report t = false /\
      t = pre ++ [EvGlfwWindowShouldClose true].
Proof.
  induction n as [|n IH]; intros fuel k0 st Hfuel Hopen Hclear Hclose;
    (destruct fuel as [|fuel]; [lia|]); rewrite frame_loop_step.
  - rewrite Nat.add_0_r in Hclose. rewrite Hclose.
    exists [EvGlfwWindowShouldClose true], st, []. repeat split.
  - rewrite (Hopen k0), (Hclear k0) by lia.
    destruct (IH fuel (S k0) (after_frame env k0 st)) as
      (t & st' & pre & Hloop & Hstart & Hpoll & Hquiet & Ht).
    + lia.
    + intros j Hj. apply Hopen. lia.
    + intros j Hj. apply Hclear. lia.
    + now rewrite Nat.add_succ_comm.
    + rewrite Hloop. cbn [fst snd].
      eexists _, st', (_ :: frame_calls env k0 st ++ _ :: pre).
      split; [reflexivity|].
      change (EvGlfwWindowShouldClose false :: ?a ++ ?b :: ?c)
        with ([EvGlfwWindowShouldClose false] ++ a ++ [b] ++ c).
      rewrite !count_app, !existsb_app, Hstart, Hpoll, Hquiet.
      repeat split.
      rewrite Ht. cbn [app]. rewrite <- app_assoc. reflexivity.
Qed.

(** X8.  A run starts up and the window asks to close when frame [k] is
    about to begin, the interrupt flag not having been seen set before.
    Then exactly [k] frames are run and the flag is read [k] times; the
    run leaves the loop on the close request, without the interrupt
    report, goes through the shutdown, in which the file reader is
    released exactly once, and ends with status [0]. *)
Theorem close_request_ends_run
    (max : nat) (env : environment) (fuel : nat) (o : options)
    (r : FileReader.file_reader) (d : Display.raster_display) (k : nat) :
  starts_up max env o r d ->
  (forall j, (j < k)%nat -> window_should_close env j = false) ->
  (forall j, (j < k)%nat -> interrupt_flag env j = false) ->
  window_should_close env k = true ->
  (k < fuel)%nat ->
  snd (main max env fuel) = Exited EXIT_SUCCESS /\
  count is_frame_start (fst (main max env fuel)) = k /\
  count is_flag_poll (fst (main max env fuel)) = k /\
  count is_reader_free (fst (main max env fuel)) = 1%nat /\
  existsb is_interrupt_report (fst (main max env fuel)) = false /\
  (exists pre,
     fst (main max env fuel) = pre ++ [EvGlfwWindowShouldClose true] ++ coda).
Proof.
  intros Hup Hopen Hclear Hclose Hfuel.
  destruct (frame_loop_until_close env k fuel 0 (first_locals env r d))
    as (t & st' & pre & Hloop & Hstart & Hpoll & Hquiet & Ht);
    [exact Hfuel | intros j Hj; apply Hopen; lia
     | intros j Hj; apply Hclear; lia | exact Hclose |].
  rewrite (main_started max env fuel o r d Hup), Hloop. cbn [fst snd].
  loop_lacks Hloop is_reader_free.
  rewrite !count_app, !existsb_app, Hstart, Hpoll, Hquiet, Hcount.
  split; [reflexivity|]. split; [cbn; lia|]. split; [cbn; lia|].
  split; [reflexivity|]. split; [reflexivity|].
  exists (prelude env o r ++ pre). rewrite Ht, <- !app_assoc. reflexivity.
Qed.

Lemma close_request_ends_run_witness :
  let env := sample_env [opt_file "data.bin"; opt_size "4"] 2 5
               (fun _ => true) in
  snd (main 256 env 10) = Exited EXIT_SUCCESS /\
  count is_frame_start (fst (main 256 env 10)) = 2%nat /\
  count is_flag_poll (fst (main 256 env 10)) = 2%nat /\
  count is_reader_free (fst (main 256 env 10)) = 1%nat /\
  existsb is_interrupt_report (fst (main 256 env 10)) = false /\
  (exists pre,
     fst (main 256 env 10) = pre ++ [EvGlfwWindowShouldClose true] ++ coda).
Proof.
  apply (close_request_ends_run 256
           (sample_env [opt_file "data.bin"; opt_size "4"] 2 5 (fun _ => true))
           10 {| file_path := "data.bin"; buffer_size := 4 |}
           sample_reader sample_display 2).
  - unfold starts_up. repeat split; reflexivity.
  - intros j Hj. destruct j as [|[|j]]; [reflexivity.. | lia].
  - intros j Hj. destruct j as [|[|j]]; [reflexivity.. | lia].
  - reflexivity.
  - lia.
Defined.

(** Without a close request and without the flag the loop goes on. *)
Lemma frame_loop_goes_on (env : environment) (fuel : nat) :
  forall (k0 : nat) (st : locals),
    (forall j, (k0 <= j < k0 + fuel)%nat ->
       window_should_close env j = false) ->
    (forall j, (k0 <= j < k0 + fuel)%nat -> interrupt_flag env j = false) ->
    snd (frame_loop env fuel k0 st) = Halt Running /\
    count is_frame_start (fst (frame_loop env fuel k0 st)) = fuel.
Proof.
  induction fuel as [|fuel IH]; intros k0 st Hopen Hclear.
  - split; reflexivity.
  - rewrite frame_loop_step, (Hopen k0), (Hclear k0) by lia.
    destruct (IH (S k0) (after_frame env k0 st)) as [Hend Hstart].
    + intros j Hj. apply Hopen. lia.
    + intros j Hj. apply Hclear. lia.
    + cbn [fst snd]. split; [exact Hend|].
      change (EvGlfwWindowShouldClose false :: ?a ++ ?b :: ?c)
        with ([EvGlfwWindowShouldClose false] ++ a ++ [b] ++ c).
      rewrite !count_app, Hstart. reflexivity.
Qed.

(** X9.  The frame loop has no other way out than a close request or the
    interrupt flag: a run that starts up and meets neither during its
    first [n] frames has run [n] frames and is still in its loop, whatever
    the dialog, the reads and the window sizes were; it has released
    nothing. *)
Theorem loop_ends_only_on_close_or_interrupt
    (max : nat) (env : environment) (n : nat) (o : options)
    (r : FileReader.file_reader) (d : Display.raster_display) :
  starts_up max env o r d ->
  (forall j, (j < n)%nat -> window_should_close env j = false) ->
  (forall j, (j < n)%nat -> interrupt_flag env j = false) ->
  snd (main max env n) = Running /\
  count is_frame_start (fst (main max env n)) = n /\
  existsb is_release (fst (main max env n)) = false.
Proof.
  intros Hup Hopen Hclear.
  destruct (frame_loop_goes_on env n 0 (first_locals env r d))
    as [Hend Hstart];
    [intros j Hj; apply Hopen; lia | intros j Hj; apply Hclear; lia |].
  rewrite (main_started max env n o r d Hup).
  destruct (frame_loop env n 0 (first_locals env r d)) as [t [st|out]] eqn:Hloop;
    cbn [fst snd] in *; [discriminate Hend|].
  injection Hend as ->. loop_lacks Hloop is_release.
  rewrite count_app, existsb_app, Hstart, Hex. repeat split.
Qed.

Lemma loop_ends_only_on_close_or_interrupt_witness :
  let env := sample_env [opt_file "data.bin"; opt_size "4"] 7 7
               (fun k => Nat.even k) in
  snd (main 256 env 3) = Running /\
  count is_frame_start (fst (main 256 env 3)) = 3%nat /\
  existsb is_release (fst (main 256 env 3)) = false.
Proof.
  apply (loop_ends_only_on_close_or_interrupt 256
           (sample_env [opt_file "data.bin"; opt_size "4"] 7 7
              (fun k => Nat.even k))
           3 {| file_path := "data.bin"; buffer_size := 4 |}
           sample_reader sample_display).
  - unfold starts_up. repeat split; reflexivity.
  - intros j Hj. destruct j as [|[|[|j]]]; [reflexivity.. | lia].
  - intros j Hj. destruct j as [|[|[|j]]]; [reflexivity.. | lia].
Defined.

(** ** The window request *)

Lemma substring_0_length (n : nat) (s : string) :
  (String.length (substring 0 n s) <= n)%nat.
Proof.
  revert s. induction n as [|n IH]; intros [|c s]; simpl; try lia.
  specialize (IH s). lia.
Qed.

Lemma substring_0_all (n : nat) (s : string) :
  (String.length s <= n)%nat -> substring 0 n s = s.
Proof.
  revert s. induction n as [|n IH]; intros [|c s]; simpl; intros Hlen;
    try reflexivity; try lia.
  rewrite IH by lia. reflexivity.
Qed.

(** X10.  Whenever a run asks for a window it asks for [1024] by [768]
    and a title that reads [[glraster] - ] followed by the first [114]
    characters of the scanned file name, so at most [127] characters; a
    file name of up to [114] characters is shown whole. *)
Theorem window_request_is_bounded
    (max : nat) (env : environment) (fuel : nat) (o : options) :
  scan_options max (getopt_results env) initial_options = ([], Continue o) ->
  forall width height title ok,
    In (EvGlfwCreateWindow width height title ok) (fst (main max env fuel)) ->
    width = 1024 /\ height = 768 /\
    title = ("[glraster] - " ++ substring 0 114 (file_path o))%string /\
    (String.length title <= 127)%nat /\
    ((String.length (file_path o) <= 114)%nat ->
     title = ("[glraster] - " ++ file_path o)%string).
Proof.
  intros Hscan width height title ok.
  assert (Htitle :
    1024 = 1024 /\ 768 = 768 /\
    snprintf MAX_TITLE_LEN
      ("[" ++ DEFAULT_WINDOW_PREFIX ++ "] - " ++ file_path o)%string
      = ("[glraster] - " ++ substring 0 114 (file_path o))%string /\
    (String.length
       (snprintf MAX_TITLE_LEN
          ("[" ++ DEFAULT_WINDOW_PREFIX ++ "] - " ++ file_path o)%string)
     <= 127)%nat /\
    ((String.length (file_path o) <= 114)%nat ->
     snprintf MAX_TITLE_LEN
       ("[" ++ DEFAULT_WINDOW_PREFIX ++ "] - " ++ file_path o)%string
       = ("[glraster] - " ++ file_path o)%string)).
  { assert (Heq :
      snprintf MAX_TITLE_LEN
        ("[" ++ DEFAULT_WINDOW_PREFIX ++ "] - " ++ file_path o)%string
        = ("[glraster] - " ++ substring 0 114 (file_path o))%string)
      by reflexivity.
    rewrite Heq. repeat split.
    - pose proof (substring_0_length 114 (file_path o)). simpl. lia.
    - intros Hshort. now rewrite substring_0_all. }
  run_cases env fuel Hscan; intros Hin;
    repeat (destruct Hin as [Hin | Hin];
            [ try discriminate Hin;
              try (injection Hin as <- <- <- _; exact Htitle) |]);
    try contradiction.
  - apply in_app_or in Hin. destruct Hin as [Hin | Hin].
    + apply (frame_loop_call _ _ _ _ _ _ _ Hloop) in Hin. discriminate Hin.
    + repeat (destruct Hin as [Hin | Hin]; [discriminate Hin|]).
      contradiction.
  - apply (frame_loop_call _ _ _ _ _ _ _ Hloop) in Hin. discriminate Hin.
Qed.

Lemma window_request_is_bounded_witness :
  let env := sample_env [opt_file "data.bin"] 2 5 (fun _ => true) in
  In (EvGlfwCreateWindow 1024 768 "[glraster] - data.bin" true)
     (fst (main 256 env 10)) /\
  (1024 = 1024 /\ 768 = 768 /\
   "[glraster] - data.bin"
     = ("[glraster] - " ++ substring 0 114 "data.bin")%string /\
   (String.length "[glraster] - data.bin" <= 127)%nat /\
   ((String.length "data.bin" <= 114)%nat ->
    "[glraster] - data.bin" = ("[glraster] - " ++ "data.bin")%string)).
Proof.
  cbv zeta.
  assert (Hin : In (EvGlfwCreateWindow 1024 768 "[glraster] - data.bin" true)
                   (fst (main 256 (sample_env [opt_file "data.bin"] 2 5
                                     (fun _ => true)) 10)))
    by (do 6 right; left; reflexivity).
  split; [exact Hin|].
  exact (window_request_is_bounded 256
           (sample_env [opt_file "data.bin"] 2 5 (fun _ => true)) 10
           {| file_path := "data.bin"; buffer_size := 512 |}
           eq_refl 1024 768 "[glraster] - data.bin" true Hin).
Defined.

(** ** Signals *)





